(** * mdserve: render, serve and live-reload of one markdown file

    A shallow embedding of [src/server.js], [src/htmlTemplate.js],
    [src/renderMarkdown.js] and [src/fileWatcher.js].

    JavaScript strings are modelled as [string] (a sequence of bytes; every
    character the code inspects is ASCII), numbers that hold file sizes as
    [Z], the [Set] of SSE responses as a duplicate-free list in insertion
    order (the order a JS [Set] iterates in), and promises that are awaited
    as tasks of an explicit event-loop state machine.  A response is its
    status code and body; response headers are not part of it, and
    [getMimeType] is given on its own. *)

From Stdlib Require Import String Ascii List ZArith Bool Arith Lia.
From Stdlib Require Import DecimalString.
Import ListNotations.
Open Scope list_scope.
Open Scope string_scope.

(** ** Results of fallible calls *)

(** An exception value.  [FileTooLarge] is the [Error] built in
    [renderMarkdown]; [PortInUse] the one built on [EADDRINUSE] in
    [createServer]; [SysError] any error raised by the platform
    (fs, the markdown pipeline, a socket write, [listen]). *)
Inductive Error : Type :=
| FileTooLarge (size : Z)
| PortInUse (port : nat)
| SysError (message : string).

(** A settled promise, or a call that returns or throws. *)
Inductive result (A : Type) : Type :=
| Ok (a : A)
| Throw (e : Error).
Arguments Ok {A} a.
Arguments Throw {A} e.

Definition is_ok {A} (r : result A) : bool :=
  match r with Ok _ => true | Throw _ => false end.

(** ** JavaScript string primitives used by the code *)

Module JsString.

(** [s.startsWith(p)] *)
Definition startsWith (s p : string) : bool := String.prefix p s.

(** [s.slice(n)] for [0 <= n] *)
Fixpoint slice (n : nat) (s : string) : string :=
  match n, s with
  | O, _ => s
  | S _, EmptyString => EmptyString
  | S n', String _ s' => slice n' s'
  end.

Definition chars (s : string) : list ascii := list_ascii_of_string s.
Definition of_chars (l : list ascii) : string := string_of_list_ascii l.

(** The one-character string holding a double quote. *)
Definition dq : string := String "034"%char EmptyString.
(** The one-character string holding a line feed. *)
Definition nl : string := String "010"%char EmptyString.

(** [s.split(sep)] for a one-character separator. *)
Fixpoint split_on (sep : ascii) (s : string) : list string :=
  match s with
  | EmptyString => [EmptyString]
  | String c s' =>
      if Ascii.eqb c sep then EmptyString :: split_on sep s'
      else match split_on sep s' with
           | [] => [String c EmptyString]
           | seg :: segs => String c seg :: segs
           end
  end.

(** [segs.join(sep)] *)
Fixpoint join (sep : string) (segs : list string) : string :=
  match segs with
  | [] => EmptyString
  | [seg] => seg
  | seg :: rest => seg ++ sep ++ join sep rest
  end.

End JsString.

(** ** Node's [path] module, POSIX flavour

    [path] belongs to the platform, not to the repository.  The functions
    below follow [lib/path.js]: [dirname] and [basename] scan the characters
    from the end as the library does; [normalizeString] is given on the
    [/]-separated segments, which is what the library's character loop
    computes (an empty segment and [.] are skipped, [..] removes the last
    kept segment, or is kept when nothing can be removed and the path is
    relative). *)

Module Path.
Import JsString.

Definition slash : ascii := "/"%char.
Definition is_slash (c : ascii) : bool := Ascii.eqb c slash.

Fixpoint drop_while (p : ascii -> bool) (l : list ascii) : list ascii :=
  match l with
  | [] => []
  | c :: l' => if p c then drop_while p l' else l
  end.

Fixpoint take_while (p : ascii -> bool) (l : list ascii) : list ascii :=
  match l with
  | [] => []
  | c :: l' => if p c then c :: take_while p l' else []
  end.

(** One step of [normalizeString]; [kept] holds the segments kept so far,
    the last one first. *)
Definition normalize_step (allowAboveRoot : bool) (kept : list string)
           (seg : string) : list string :=
  if String.eqb seg "" || String.eqb seg "." then kept
  else if String.eqb seg ".." then
    match kept with
    | top :: below =>
        if String.eqb top ".."
        then (if allowAboveRoot then ".." :: kept else kept)
        else below
    | [] => if allowAboveRoot then [".."] else []
    end
  else seg :: kept.

Definition normalizeString (path : string) (allowAboveRoot : bool) : string :=
  join "/" (rev (fold_left (normalize_step allowAboveRoot)
                           (split_on slash path) [])).

Definition isAbsolute (path : string) : bool :=
  match path with
  | String c _ => is_slash c
  | EmptyString => false
  end.

(** The right-to-left loop of [resolve]: [args_rev] are the arguments not
    yet visited, the last one first; the working directory comes after
    the first argument. *)
Fixpoint resolve_loop (cwd : string) (args_rev : list string)
         (resolvedPath : string) : string * bool :=
  match args_rev with
  | [] =>
      if String.eqb cwd "" then (resolvedPath, false)
      else (cwd ++ "/" ++ resolvedPath, isAbsolute cwd)
  | path :: more =>
      if String.eqb path "" then resolve_loop cwd more resolvedPath
      else
        let resolvedPath' := path ++ "/" ++ resolvedPath in
        if isAbsolute path then (resolvedPath', true)
        else resolve_loop cwd more resolvedPath'
  end.

(** [path.resolve(...args)] with [process.cwd() = cwd]. *)
Definition resolve (cwd : string) (args : list string) : string :=
  let '(resolvedPath, resolvedAbsolute) := resolve_loop cwd (rev args) "" in
  let normalized := normalizeString resolvedPath (negb resolvedAbsolute) in
  if resolvedAbsolute then "/" ++ normalized
  else if String.eqb normalized "" then "." else normalized.

(** [path.dirname(path)] *)
Definition dirname (path : string) : string :=
  match chars path with
  | [] => "."
  | c0 :: tl =>
      let hasRoot := is_slash c0 in
      (* from the end: trailing slashes, then the last segment *)
      match drop_while (fun c => negb (is_slash c))
                       (drop_while is_slash (rev tl)) with
      | [] => if hasRoot then "/" else "."
      | _ :: before_rev =>
          match before_rev with
          | [] => if hasRoot then "//" else of_chars [c0]
          | _ => of_chars (c0 :: rev before_rev)
          end
      end
  end.

(** [path.basename(path)] *)
Definition basename (path : string) : string :=
  of_chars (rev (take_while (fun c => negb (is_slash c))
                            (drop_while is_slash (rev (chars path))))).

End Path.

(** ** The platform

    What the code takes from Node and from npm packages: the working
    directory, [decodeURIComponent] ([None] when it throws [URIError]), the
    unified/remark/rehype pipeline of [renderMarkdown] (given the action of
    the repository's own plugin on the [url] of an image or link node), and
    the path of [github-markdown.css] under [node_modules]. *)
Record Platform : Type := {
  cwd : string;
  decodeURIComponent : string -> option string;
  unified_process : (string -> string) -> string -> result string;
  cssPath : string
}.

(** The answers of [fs/promises] to the calls made by one task. *)
Record FS : Type := {
  stat_size : string -> result Z;       (* [(await stat(p)).size] *)
  readFile : string -> result string;   (* [await readFile(p, 'utf-8')] *)
  access_R_OK : string -> result unit   (* [await access(p, R_OK)] *)
}.

(** ** [src/renderMarkdown.js] *)

Module RenderMarkdown.
Import JsString.

(** [const MAX_FILE_SIZE = 10 * 1024 * 1024] *)
Definition MAX_FILE_SIZE : Z := 10 * 1024 * 1024.

(** The visitor of [remarkRelativePathResolver], on the [url] of one
    [image] or [link] node. *)
Definition remarkRelativePathResolver (url : string) : string :=
  if String.eqb url ""
     || startsWith url "http://"
     || startsWith url "https://"
     || startsWith url "//"
     || startsWith url "#"
  then url
  else "/assets/" ++ url.

Definition renderMarkdown (P : Platform) (fs : FS) (filePath : string)
  : result string :=
  match stat_size fs filePath with
  | Throw e => Throw e
  | Ok size =>
      if (size >? MAX_FILE_SIZE)%Z then Throw (FileTooLarge size)
      else
        match readFile fs filePath with
        | Throw e => Throw e
        | Ok content =>
            unified_process P remarkRelativePathResolver content
        end
  end.

(** [getBaseDir(filePath)] *)
Definition getBaseDir (P : Platform) (filePath : string) : string :=
  Path.dirname (Path.resolve (cwd P) [filePath]).

End RenderMarkdown.

(** ** [src/htmlTemplate.js] *)

Module HtmlTemplate.
Import JsString.

(** An attribute: the name, an equals sign and the quoted value. *)
Definition attr (name value : string) : string :=
  name ++ "=" ++ dq ++ value ++ dq.

Definition lines (ls : list string) : string := join nl ls.

Definition CONTAINER_CSS : string :=
  lines [
    ":root {";
    "  color-scheme: light;";
    "}";
    "";
    "/* Force light mode - override any dark mode styles */";
    "body {";
    "  box-sizing: border-box;";
    "  min-width: 200px;";
    "  max-width: 980px;";
    "  margin: 0 auto;";
    "  padding: 45px;";
    "  background-color: #ffffff !important;";
    "  color: #24292f !important;";
    "  color-scheme: light;";
    "}";
    "";
    "@media (max-width: 767px) {";
    "  body {";
    "    padding: 15px;";
    "  }";
    "}";
    "";
    ".markdown-body {";
    "  box-sizing: border-box;";
    "  color-scheme: light;";
    "  background-color: #ffffff !important;";
    "  color: #24292f !important;";
    "}";
    "";
    "/* Override dark mode media query */";
    "@media (prefers-color-scheme: dark) {";
    "  body,";
    "  .markdown-body {";
    "    background-color: #ffffff !important;";
    "    color: #24292f !important;";
    "  }";
    "}" ].

Definition SSE_CLIENT_SCRIPT : string :=
  lines [
    "(function() {";
    "  const eventSource = new EventSource('/events');";
    "";
    "  eventSource.onmessage = function(event) {";
    "    if (event.data === 'reload') {";
    "      console.log('File changed, reloading...');";
    "      location.reload();";
    "    }";
    "  };";
    "";
    "  eventSource.onerror = function(error) {";
    "    console.error('SSE connection error:', error);";
    "    // EventSource automatically attempts to reconnect";
    "  };";
    "";
    "  // Log when connection is established";
    "  eventSource.onopen = function() {";
    "    console.log('Live reload connected');";
    "  };";
    "})();" ].

(** [htmlEscapes[char]] for one of the five characters of the regular
    expression (ampersand, less-than, greater-than, double quote, single
    quote), the character itself otherwise. *)
Definition escapeChar (c : ascii) : string :=
  if Ascii.eqb c "&" then "&amp;"
  else if Ascii.eqb c "<" then "&lt;"
  else if Ascii.eqb c ">" then "&gt;"
  else if Ascii.eqb c "034" then "&quot;"
  else if Ascii.eqb c "'" then "&#39;"
  else String c EmptyString.

(** [text.replace(re, char => htmlEscapes[char])], [re] global: every
    match is replaced, from left to right. *)
Fixpoint escapeHtml (text : string) : string :=
  match text with
  | EmptyString => EmptyString
  | String c rest => escapeChar c ++ escapeHtml rest
  end.

(** [if (githubMarkdownCss)]: the cached style sheet when the module
    variable is neither [null] ([None]) nor the empty string. *)
Definition cssCacheHit (githubMarkdownCss : option string) : option string :=
  match githubMarkdownCss with
  | Some (String c css) => Some (String c css)
  | _ => None
  end.

(** The [try]/[catch] of [loadGithubMarkdownCss], once [readFile] has
    settled: the string returned and the module variable afterwards. *)
Definition cssCacheMiss (P : Platform) (fs : FS)
           (githubMarkdownCss : option string) : string * option string :=
  match readFile fs (cssPath P) with
  | Ok css => (css, Some css)
  | Throw _ => ("", githubMarkdownCss)
  end.

(** [loadGithubMarkdownCss()] run to completion. *)
Definition loadGithubMarkdownCss (P : Platform) (fs : FS)
           (githubMarkdownCss : option string) : string * option string :=
  match cssCacheHit githubMarkdownCss with
  | Some css => (css, githubMarkdownCss)
  | None => cssCacheMiss P fs githubMarkdownCss
  end.

(** The options object of [generateHtml]; an absent field is [None]. *)
Record GenerateOptions : Type := {
  opt_filename : option string;
  opt_watch : option bool
}.

(** The text of the template before the title. *)
Definition documentHead : string :=
  lines [
    "<!DOCTYPE html>";
    "<html " ++ attr "lang" "en" ++ ">";
    "<head>";
    "  <meta " ++ attr "charset" "UTF-8" ++ ">";
    "  <meta " ++ attr "name" "viewport" ++ " "
      ++ attr "content" "width=device-width, initial-scale=1" ++ ">";
    "  <meta " ++ attr "name" "color-scheme" ++ " "
      ++ attr "content" "light" ++ ">";
    "  <title>" ].

Definition highlightLink : string :=
  "  <link " ++ attr "rel" "stylesheet" ++ " "
  ++ attr "href" "https://cdnjs.cloudflare.com/ajax/libs/highlight.js/11.9.0/styles/github.min.css"
  ++ " "
  ++ attr "integrity" "sha512-0aPQyyeZrWj9sCA46UlmWgKOP0mUipLQ6OZXu8l4IcAmD2u31EPEy9VcIMvl7SoAaKe8bLXZhYoMaE/in+gcgA=="
  ++ " " ++ attr "crossorigin" "anonymous"
  ++ " " ++ attr "referrerpolicy" "no-referrer" ++ ">".

(** The text of the template after the title. *)
Definition documentRest (githubCss renderedContent : string) (watch : bool)
  : string :=
  lines [
    "</title>";
    "";
    "  <!-- GitHub Markdown CSS (inlined) -->";
    "  <style>";
    githubCss;
    "  </style>";
    "";
    "  <!-- Container and responsive styles -->";
    "  <style>";
    CONTAINER_CSS;
    "  </style>";
    "";
    "  <!-- GitHub-style syntax highlighting theme -->";
    highlightLink;
    "</head>";
    "<body>";
    "  <article " ++ attr "class" "markdown-body" ++ ">";
    renderedContent;
    "  </article>";
    "";
    "  " ++ (if watch
            then lines [ "<!-- Live reload script -->";
                         "  <script>";
                         SSE_CLIENT_SCRIPT;
                         "  </script>" ]
            else "");
    "</body>";
    "</html>" ].

(** [generateHtml(renderedContent, options)], given the style sheet that
    [loadGithubMarkdownCss] returned. *)
Definition generateHtml (renderedContent : string) (options : GenerateOptions)
           (githubCss : string) : string :=
  let filename := match opt_filename options with
                  | Some f => f
                  | None => "Markdown Preview"
                  end in
  let watch := match opt_watch options with
               | Some w => w
               | None => false
               end in
  documentHead ++ escapeHtml filename
               ++ documentRest githubCss renderedContent watch.

End HtmlTemplate.

(** ** [src/fileWatcher.js] *)

Module FileWatcher.

(** A [FileWatcher]; [watcher] is [false] for [null] and [true] while a
    chokidar watcher is installed. *)
Record t : Type := { filePath : string; watcher : bool }.

Definition new (path : string) : t := {| filePath := path; watcher := false |}.
Definition start (w : t) : t := {| filePath := filePath w; watcher := true |}.
Definition stop (w : t) : t := {| filePath := filePath w; watcher := false |}.

End FileWatcher.

(** ** [src/server.js] *)

(** The identity of the [res] object of one request. *)
Definition Res : Type := nat.

Inductive Body : Type :=
| Text (chunk : string)            (* [res.end(chunk)] *)
| FileStream (path : string)       (* [createReadStream(path).pipe(res)],
                                      with its ['error'] listener *)
| EventStream (written : string).  (* left open after [res.write(written)] *)

Record Response : Type := { status : nat; body : Body }.

(** What [client.write] does for one viewer: the chunk reaches the viewer,
    the connection is gone and the chunk is lost without an exception, or
    the call throws. *)
Inductive WriteOutcome : Type :=
| Delivered
| Lost
| Raised (e : Error).

(** Observable actions, in the order they happen. *)
Inductive Effect : Type :=
| ConsoleLog (message : string)
| ConsoleError (message : string) (e : Error)
| CallRenderMarkdown (path : string)
| WatcherStart
| WatcherStop
| Listen (port : nat)
| Respond (res : Res) (r : Response)
| ClientWrite (client : Res) (chunk : string) (o : WriteOutcome)
| ClientEnd (client : Res).

(** The [options] argument of [createServer]; an absent field is [None]. *)
Record Options : Type := { o_port : option nat; o_watch : option bool }.

(** The constants of one [createServer] call. *)
Record Config : Type := {
  port : nat;
  watch : bool;
  absoluteFilePath : string;
  baseDir : string;
  filename : string
}.

(** Where a suspended ['change'] handler waits. *)
Inductive Phase : Type :=
| AwaitRender
    (* in [updateRenderedHtml], at [await renderMarkdown(...)] *)
| AwaitGenerate (renderedContent : string) (cssHit : option string)
    (* in [updateRenderedHtml], at [await generateHtml(...)] *)
| AwaitUpdate (r : result string).
    (* in the handler, at [await updateRenderedHtml()], which has settled *)

Record Server : Type := {
  config : Config;
  cachedHtml : option string;          (* [null] is [None] *)
  sseClients : list Res;               (* a [Set], in insertion order *)
  closeListeners : list Res;           (* requests with a ['close'] listener *)
  fileWatcher : option FileWatcher.t;  (* [null] is [None] *)
  githubMarkdownCss : option string;   (* module variable of the template *)
  handlers : list (nat * Phase);       (* suspended ['change'] handlers *)
  nextHandler : nat;
  listening : bool;
  trace : list Effect
}.

(** How [server.listen] ends. *)
Inductive ListenOutcome : Type :=
| Listening
| ListenError (code : string) (e : Error).

(** What happens to a running server. *)
Inductive Event : Type :=
| EvRequest (res : Res) (url : string) (fs : FS)
| EvConnClose (res : Res)             (* ['close'] on the request of [res] *)
| EvFileChange                        (* ['change'] from the file watcher *)
| EvRenderSettled (h : nat) (fs : FS) (* [renderMarkdown] of handler [h] settles *)
| EvGenerateSettled (h : nat) (fs : FS) (* [generateHtml] of handler [h] settles *)
| EvResume (h : nat) (writes : Res -> WriteOutcome)
                                      (* handler [h] resumes after its [await] *)
| EvClose.                            (* [close()] is called *)

Module SetOps.

(** [set.has(x)] *)
Definition has (l : list Res) (x : Res) : bool := existsb (Nat.eqb x) l.

(** [set.add(x)] *)
Definition add (l : list Res) (x : Res) : list Res :=
  if has l x then l else (l ++ [x])%list.

(** [set.delete(x)] *)
Definition delete (l : list Res) (x : Res) : list Res :=
  filter (fun y => negb (Nat.eqb y x)) l.

End SetOps.

Section Server.

Variable P : Platform.

Import JsString.

Definition with_cachedHtml (s : Server) (h : option string) : Server :=
  {| config := config s; cachedHtml := h; sseClients := sseClients s;
     closeListeners := closeListeners s; fileWatcher := fileWatcher s;
     githubMarkdownCss := githubMarkdownCss s; handlers := handlers s;
     nextHandler := nextHandler s; listening := listening s;
     trace := trace s |}.

Definition with_clients (s : Server) (clients listeners : list Res) : Server :=
  {| config := config s; cachedHtml := cachedHtml s; sseClients := clients;
     closeListeners := listeners; fileWatcher := fileWatcher s;
     githubMarkdownCss := githubMarkdownCss s; handlers := handlers s;
     nextHandler := nextHandler s; listening := listening s;
     trace := trace s |}.

Definition with_css (s : Server) (css : option string) : Server :=
  {| config := config s; cachedHtml := cachedHtml s;
     sseClients := sseClients s; closeListeners := closeListeners s;
     fileWatcher := fileWatcher s; githubMarkdownCss := css;
     handlers := handlers s; nextHandler := nextHandler s;
     listening := listening s; trace := trace s |}.

Definition with_handlers (s : Server) (hs : list (nat * Phase)) (next : nat)
  : Server :=
  {| config := config s; cachedHtml := cachedHtml s;
     sseClients := sseClients s; closeListeners := closeListeners s;
     fileWatcher := fileWatcher s; githubMarkdownCss := githubMarkdownCss s;
     handlers := hs; nextHandler := next; listening := listening s;
     trace := trace s |}.

Definition with_shutdown (s : Server) : Server :=
  {| config := config s; cachedHtml := cachedHtml s;
     sseClients := sseClients s; closeListeners := closeListeners s;
     fileWatcher := option_map FileWatcher.stop (fileWatcher s);
     githubMarkdownCss := githubMarkdownCss s; handlers := handlers s;
     nextHandler := nextHandler s; listening := false; trace := trace s |}.

Definition emit (s : Server) (effs : list Effect) : Server :=
  {| config := config s; cachedHtml := cachedHtml s;
     sseClients := sseClients s; closeListeners := closeListeners s;
     fileWatcher := fileWatcher s; githubMarkdownCss := githubMarkdownCss s;
     handlers := handlers s; nextHandler := nextHandler s;
     listening := listening s; trace := (trace s ++ effs)%list |}.

(** The phase of handler [h], when it is suspended. *)
Fixpoint phase_of (hs : list (nat * Phase)) (h : nat) : option Phase :=
  match hs with
  | [] => None
  | (h', ph) :: rest => if Nat.eqb h' h then Some ph else phase_of rest h
  end.

Fixpoint set_phase (hs : list (nat * Phase)) (h : nat) (ph : Phase)
  : list (nat * Phase) :=
  match hs with
  | [] => []
  | (h', ph') :: rest =>
      if Nat.eqb h' h then (h', ph) :: rest
      else (h', ph') :: set_phase rest h ph
  end.

Definition drop_handler (hs : list (nat * Phase)) (h : nat)
  : list (nat * Phase) :=
  filter (fun e => negb (Nat.eqb (fst e) h)) hs.

Definition generateOptions (c : Config) : HtmlTemplate.GenerateOptions :=
  {| HtmlTemplate.opt_filename := Some (filename c);
     HtmlTemplate.opt_watch := Some (watch c) |}.

(** *** The request handler *)

Definition forbidden : Response :=
  {| status := 403; body := Text "403 Forbidden: Access denied" |}.
Definition notFound : Response :=
  {| status := 404; body := Text "404 Not Found" |}.

(** [res.end(cachedHtml)] *)
Definition endWith (chunk : option string) : Body :=
  match chunk with
  | Some c => Text c
  | None => Text ""
  end.

(** The [/assets/] branch.  An exception inside the [try] block (from
    [decodeURIComponent] or [access]) ends in the [catch]: 404.  The branch
    reads [baseDir] only, so it is run to its response in one go.  What the
    read stream then puts in the body, its ['error'] listener included, is
    given by [received]. *)
Definition serveAsset (c : Config) (fs : FS) (url : string) : Response :=
  match decodeURIComponent P (slice (String.length "/assets/") url) with
  | None => notFound
  | Some relativePath =>
      let assetPath := Path.resolve (cwd P) [baseDir c; relativePath] in
      if negb (startsWith assetPath (baseDir c)) then forbidden
      else
        match access_R_OK fs assetPath with
        | Throw _ => notFound
        | Ok _ => {| status := 200; body := FileStream assetPath |}
        end
  end.

Definition requestHandler (s : Server) (fs : FS) (res : Res) (url : string)
  : Server * Response :=
  if String.eqb url "/" then
    (s, {| status := 200; body := endWith (cachedHtml s) |})
  else if watch (config s) && String.eqb url "/events" then
    (with_clients s (SetOps.add (sseClients s) res)
                    (SetOps.add (closeListeners s) res),
     {| status := 200; body := EventStream (": connected" ++ nl ++ nl) |})
  else if startsWith url "/assets/" then
    (s, serveAsset (config s) fs url)
  else
    (s, notFound).

(** *** The ['change'] handler *)

Definition reloadChunk : string := "data: reload" ++ nl ++ nl.

(** [for (const client of sseClients) client.write(...)]: the calls made
    and how the loop ends. *)
Fixpoint notifyLoop (writes : Res -> WriteOutcome) (clients : list Res)
  : list Effect * result unit :=
  match clients with
  | [] => ([], Ok tt)
  | client :: rest =>
      match writes client with
      | Raised e => ([ClientWrite client reloadChunk (Raised e)], Throw e)
      | o =>
          let '(effs, r) := notifyLoop writes rest in
          (ClientWrite client reloadChunk o :: effs, r)
      end
  end.

Definition watching (s : Server) : bool :=
  match fileWatcher s with
  | Some w => FileWatcher.watcher w
  | None => false
  end.

(** The handler runs up to its first suspension. *)
Definition onChange (s : Server) : Server :=
  emit (with_handlers s ((handlers s ++ [(nextHandler s, AwaitRender)])%list)
                        (S (nextHandler s)))
       [ConsoleLog "File changed, re-rendering...";
        CallRenderMarkdown (absoluteFilePath (config s))].

(** [renderMarkdown] has settled: [updateRenderedHtml] goes on to
    [generateHtml], or logs and rethrows. *)
Definition onRenderSettled (s : Server) (h : nat) (fs : FS) : Server :=
  match phase_of (handlers s) h with
  | Some AwaitRender =>
      match RenderMarkdown.renderMarkdown P fs (absoluteFilePath (config s)) with
      | Ok renderedContent =>
          with_handlers s
            (set_phase (handlers s) h
               (AwaitGenerate renderedContent
                  (HtmlTemplate.cssCacheHit (githubMarkdownCss s))))
            (nextHandler s)
      | Throw e =>
          emit (with_handlers s (set_phase (handlers s) h (AwaitUpdate (Throw e)))
                                (nextHandler s))
               [ConsoleError "Error rendering markdown:" e]
      end
  | _ => s
  end.

(** [generateHtml] has settled: [cachedHtml] is assigned. *)
Definition onGenerateSettled (s : Server) (h : nat) (fs : FS) : Server :=
  match phase_of (handlers s) h with
  | Some (AwaitGenerate renderedContent cssHit) =>
      let '(githubCss, cssVar) :=
        match cssHit with
        | Some css => (css, githubMarkdownCss s)
        | None => HtmlTemplate.cssCacheMiss P fs (githubMarkdownCss s)
        end in
      let html := HtmlTemplate.generateHtml renderedContent
                    (generateOptions (config s)) githubCss in
      with_handlers (with_cachedHtml (with_css s cssVar) (Some html))
                    (set_phase (handlers s) h (AwaitUpdate (Ok html)))
                    (nextHandler s)
  | _ => s
  end.

(** The handler resumes after [await updateRenderedHtml()]. *)
Definition onResume (s : Server) (h : nat) (writes : Res -> WriteOutcome)
  : Server :=
  match phase_of (handlers s) h with
  | Some (AwaitUpdate r) =>
      let s' := with_handlers s (drop_handler (handlers s) h) (nextHandler s) in
      match r with
      | Ok _ =>
          let '(effs, loop) := notifyLoop writes (sseClients s) in
          emit s'
            (ConsoleLog "Re-render complete" :: effs ++
             match loop with
             | Ok _ => []
             | Throw e =>
                 [ConsoleError "Error re-rendering after file change:" e]
             end)%list
      | Throw e =>
          emit s' [ConsoleError "Error re-rendering after file change:" e]
      end
  | _ => s
  end.

(** *** [close()] *)

Definition close (s : Server) : Server :=
  emit (with_clients (with_shutdown s) [] (closeListeners s))
       ((if watching s then [WatcherStop] else []) ++
        map ClientEnd (sseClients s))%list.

(** *** The event loop

    A request is handled whenever one arrives: [requestHandler] does not
    look at whether the server still listens, and a connection that was
    open before [close()] can deliver requests after it. *)

Definition step (s : Server) (ev : Event) : Server :=
  match ev with
  | EvRequest res url fs =>
      let '(s', r) := requestHandler s fs res url in
      emit s' [Respond res r]
  | EvConnClose res =>
      if SetOps.has (closeListeners s) res
      then with_clients s (SetOps.delete (sseClients s) res) (closeListeners s)
      else s
  | EvFileChange => if watching s then onChange s else s
  | EvRenderSettled h fs => onRenderSettled s h fs
  | EvGenerateSettled h fs => onGenerateSettled s h fs
  | EvResume h writes => onResume s h writes
  | EvClose => close s
  end.

Definition run (s : Server) (evs : list Event) : Server :=
  fold_left step evs s.

(** *** [createServer] *)

Definition makeConfig (filePath : string) (options : Options) : Config :=
  let absoluteFilePath := Path.resolve (cwd P) [filePath] in
  {| port := match o_port options with Some p => p | None => 3000 end;
     watch := match o_watch options with Some w => w | None => false end;
     absoluteFilePath := absoluteFilePath;
     baseDir := RenderMarkdown.getBaseDir P absoluteFilePath;
     filename := Path.basename absoluteFilePath |}.

(** [createServer(filePath, options)]: the actions performed and the
    value the promise settles with.  [fs] answers the calls of the first
    render, [listen] is how [server.listen(port)] ends. *)
Definition createServer (filePath : string) (options : Options)
           (fs : FS) (listen : ListenOutcome) : list Effect * result Server :=
  let c := makeConfig filePath options in
  let t0 := [CallRenderMarkdown (absoluteFilePath c)] in
  match RenderMarkdown.renderMarkdown P fs (absoluteFilePath c) with
  | Throw e => ((t0 ++ [ConsoleError "Error rendering markdown:" e])%list, Throw e)
  | Ok renderedContent =>
      let '(githubCss, cssVar) := HtmlTemplate.loadGithubMarkdownCss P fs None in
      let html := HtmlTemplate.generateHtml renderedContent
                    (generateOptions c) githubCss in
      let t1 := (if watch c then t0 ++ [WatcherStart] else t0)%list in
      let t2 := (t1 ++ [Listen (port c)])%list in
      match listen with
      | ListenError code e =>
          (t2, Throw (if String.eqb code "EADDRINUSE"
                      then PortInUse (port c) else e))
      | Listening =>
          (t2, Ok {| config := c;
                     cachedHtml := Some html;
                     sseClients := [];
                     closeListeners := [];
                     fileWatcher :=
                       if watch c
                       then Some (FileWatcher.start
                                    (FileWatcher.new (absoluteFilePath c)))
                       else None;
                     githubMarkdownCss := cssVar;
                     handlers := [];
                     nextHandler := 0;
                     listening := true;
                     trace := t2 |})
      end
  end.

End Server.

(** ** [getMimeType] of [src/server.js]

    [path.extname] follows [lib/path.js]: in the last segment of the path
    (trailing slashes apart) the extension runs from the last dot to the
    end; there is none when the segment has no dot, when its only dot is
    its first character, or when the segment is two dots.
    [String.prototype.toLowerCase] is given on the ASCII letters; another
    character is left as it is (its lower case is never an ASCII letter of
    a key of [MIME_TYPES]). *)

Module Mime.
Import JsString.

Definition is_dot (c : ascii) : bool := Ascii.eqb c ".".

(** [path.extname(path)] *)
Definition extname (path : string) : string :=
  let base_rev := Path.take_while (fun c => negb (Path.is_slash c))
                    (Path.drop_while Path.is_slash (rev (chars path))) in
  let ext_rev := Path.take_while (fun c => negb (is_dot c)) base_rev in
  match Path.drop_while (fun c => negb (is_dot c)) base_rev with
  | [] => ""
  | _ :: before_rev =>
      match before_rev, ext_rev with
      | [], _ => ""
      | [c], [] => if is_dot c then "" else "."
      | _, _ => of_chars ("."%char :: rev ext_rev)
      end
  end.

Definition lowerChar (c : ascii) : ascii :=
  let n := nat_of_ascii c in
  if (Nat.leb 65 n && Nat.leb n 90)%bool then ascii_of_nat (n + 32) else c.

(** [s.toLowerCase()] *)
Fixpoint toLowerCase (s : string) : string :=
  match s with
  | EmptyString => EmptyString
  | String c s' => String (lowerChar c) (toLowerCase s')
  end.

Definition MIME_TYPES : list (string * string) :=
  [ (".html", "text/html");
    (".css", "text/css");
    (".js", "application/javascript");
    (".json", "application/json");
    (".png", "image/png");
    (".jpg", "image/jpeg");
    (".jpeg", "image/jpeg");
    (".gif", "image/gif");
    (".svg", "image/svg+xml");
    (".webp", "image/webp");
    (".ico", "image/x-icon");
    (".pdf", "application/pdf");
    (".txt", "text/plain");
    (".md", "text/markdown") ].

(** [MIME_TYPES[key]], [None] for [undefined]. *)
Fixpoint lookup (table : list (string * string)) (key : string)
  : option string :=
  match table with
  | [] => None
  | (k, v) :: rest => if String.eqb k key then Some v else lookup rest key
  end.

(** [getMimeType(filePath)] *)
Definition getMimeType (filePath : string) : string :=
  let ext := toLowerCase (extname filePath) in
  match lookup MIME_TYPES ext with
  | Some mime => mime
  | None => "application/octet-stream"
  end.

End Mime.

(** ** The command line (the script that imports [../src/server.js])

    The action of the command, from its arguments to the point where it
    either has left the process with an exit code or is serving.
    [parseInt] ([None] for [NaN]), [toLowerCase] and the [open] package
    belong to the platform. *)

Module Cli.
Import JsString.

Record Args : Type := {
  arg_port : string;   (* [options.port], a string; the default is 3000 *)
  arg_watch : bool;
  arg_open : bool
}.

Record Env : Type := {
  parseInt10 : string -> option Z;     (* [parseInt(s, 10)] *)
  toLowerCase : string -> string;
  openBrowser : string -> result unit  (* [await open(url)] *)
}.

Inductive Out : Type :=
| Print (line : string)                    (* [console.log] *)
| PrintError (line : string)               (* [console.error] of one string *)
| PrintErrorOf (label : string) (e : Error)
                                           (* [console.error(label, e.message)] *)
| PrintWarning (line : string)             (* [console.warn] *)
| ServerActions (effs : list Effect)       (* what [createServer] did *)
| OpenBrowser (url : string).

Inductive Outcome : Type :=
| Exit (code : nat)        (* [process.exit(code)] *)
| Serving (s : Server).

(** The check mark of the messages (U+2713 in UTF-8). *)
Definition check : string :=
  String "226" (String "156" (String "147" EmptyString)).

(** [server.url] *)
Definition serverUrl (c : Config) : string :=
  "http://localhost:" ++ NilZero.string_of_uint (Nat.to_uint (port c)).

Definition invalidPort (given : string) : string :=
  "Error: Invalid port number " ++ dq ++ given ++ dq
  ++ ". Port must be between 1 and 65535.".

Definition extensionWarning (ext : string) : string :=
  "Warning: File extension " ++ dq ++ ext ++ dq
  ++ " is not .md or .markdown. Proceeding anyway...".

(** [isNaN(port) || port < 1 || port > 65535] *)
Definition portRejected (parsed : option Z) : bool :=
  match parsed with
  | None => true
  | Some port => (port <? 1)%Z || (port >? 65535)%Z
  end.

(** The [action] callback.  [fs0] answers the [access] call of the command,
    [fs] the calls of [createServer]. *)
Definition action (E : Env) (P : Platform) (file : string) (options : Args)
           (fs0 fs : FS) (listen : ListenOutcome) : list Out * Outcome :=
  match parseInt10 E (arg_port options) with
  | None => ([PrintError (invalidPort (arg_port options))], Exit 1)
  | Some port =>
      if portRejected (Some port)
      then ([PrintError (invalidPort (arg_port options))], Exit 1)
      else
        let filePath := Path.resolve (cwd P) [file] in
        match access_R_OK fs0 filePath with
        | Throw _ =>
            ([PrintError ("Error: File not found or not readable: "
                          ++ filePath)], Exit 1)
        | Ok _ =>
            let ext := toLowerCase E (Mime.extname filePath) in
            let started :=
              ((if negb (String.eqb ext ".md")
                   && negb (String.eqb ext ".markdown")
                then [PrintWarning (extensionWarning ext)] else [])
               ++ [Print "Starting mdserve...";
                   Print ("Serving: " ++ filePath)])%list in
            let '(effs, r) :=
              createServer P filePath
                {| o_port := Some (Z.to_nat port);
                   o_watch := Some (arg_watch options) |} fs listen in
            match r with
            | Throw e =>
                ((started ++ [ServerActions effs; PrintErrorOf "Error:" e])%list,
                 Exit 1)
            | Ok s =>
                let url := serverUrl (config s) in
                let running :=
                  (started
                   ++ [ServerActions effs;
                       Print (nl ++ check ++ " Server running at " ++ url)]
                   ++ (if arg_watch options
                       then [Print (check ++ " Live reload enabled")]
                       else []))%list in
                if arg_open options then
                  match openBrowser E url with
                  | Throw e =>
                      ((running
                        ++ [Print (check ++ " Opening browser...");
                            OpenBrowser url;
                            PrintErrorOf "Error:" e])%list, Exit 1)
                  | Ok _ =>
                      ((running
                        ++ [Print (check ++ " Opening browser...");
                            OpenBrowser url;
                            Print (nl ++ "Press Ctrl+C to stop")])%list,
                       Serving s)
                  end
                else
                  ((running ++ [Print (nl ++ "Press Ctrl+C to stop")])%list,
                   Serving s)
            end
        end
  end.

(** [parseInt(s, 10)] for a string whose leading white space is ASCII
    white space: the white space is skipped, a sign is read, and the
    decimal digits that follow give the number; there is no number when no
    digit follows. *)
Definition isSpace (c : ascii) : bool :=
  let n := nat_of_ascii c in
  Nat.eqb n 32 || (Nat.leb 9 n && Nat.leb n 13).

Definition digit (c : ascii) : option Z :=
  let n := nat_of_ascii c in
  if Nat.leb 48 n && Nat.leb n 57 then Some (Z.of_nat (n - 48)) else None.

Fixpoint digits (acc : option Z) (l : list ascii) : option Z :=
  match l with
  | [] => acc
  | c :: l' =>
      match digit c with
      | None => acc
      | Some d =>
          digits (Some (10 * match acc with Some a => a | None => 0 end + d)%Z)
                 l'
      end
  end.

Definition parseIntAscii (s : string) : option Z :=
  match Path.drop_while isSpace (chars s) with
  | "-"%char :: l => option_map Z.opp (digits None l)
  | "+"%char :: l => digits None l
  | l => digits None l
  end.

End Cli.

(** ** A concrete platform

    [decodeURIComponent] after ECMA-262 (Decode with an empty reserved set)
    on byte strings: a character other than [%] is copied; [%XX] with
    [XX < 0x80] gives that byte; a longer UTF-8 sequence must be written as
    consecutive escapes and be well formed, and gives its bytes; anything
    else throws [URIError]. *)

Module Uri.
Local Open Scope nat_scope.

Definition hexDigit (c : ascii) : option nat :=
  let n := nat_of_ascii c in
  if (48 <=? n) && (n <=? 57) then Some (n - 48)
  else if (65 <=? n) && (n <=? 70) then Some (n - 55)
  else if (97 <=? n) && (n <=? 102) then Some (n - 87)
  else None.

(** One escape [%XX] at the front of [l]. *)
Definition escape (l : list ascii) : option (nat * list ascii) :=
  match l with
  | "%"%char :: a :: b :: rest =>
      match hexDigit a, hexDigit b with
      | Some x, Some y => Some (16 * x + y, rest)
      | _, _ => None
      end
  | _ => None
  end.

(** [n] escaped continuation bytes at the front of [l]. *)
Fixpoint continuation (n : nat) (l : list ascii)
  : option (list nat * list ascii) :=
  match n with
  | O => Some ([], l)
  | S n' =>
      match escape l with
      | Some (b, rest) =>
          if (128 <=? b) && (b <=? 191) then
            match continuation n' rest with
            | Some (bs, rest') => Some (b :: bs, rest')
            | None => None
            end
          else None
      | None => None
      end
  end.

(** Number of continuation bytes announced by a leading byte. *)
Definition following (b0 : nat) : option nat :=
  if (192 <=? b0) && (b0 <=? 223) then Some 1
  else if (224 <=? b0) && (b0 <=? 239) then Some 2
  else if (240 <=? b0) && (b0 <=? 247) then Some 3
  else None.

(** The sequence encodes a code point: not overlong, not a surrogate, not
    above U+10FFFF. *)
Definition wellFormed (b0 : nat) (bs : list nat) : bool :=
  match bs with
  | [] => false
  | b1 :: _ =>
      if b0 <? 194 then false
      else if b0 =? 224 then 160 <=? b1
      else if b0 =? 237 then b1 <=? 159
      else if b0 =? 240 then 144 <=? b1
      else if b0 =? 244 then b1 <=? 143
      else b0 <? 244
  end.

Fixpoint decode (fuel : nat) (l : list ascii) : option (list ascii) :=
  match fuel with
  | O => match l with [] => Some [] | _ => None end
  | S fuel' =>
      match l with
      | [] => Some []
      | c :: rest =>
          if Ascii.eqb c "%" then
            match escape l with
            | None => None
            | Some (b0, rest0) =>
                if b0 <? 128 then
                  option_map (cons (ascii_of_nat b0)) (decode fuel' rest0)
                else
                  match following b0 with
                  | None => None
                  | Some n =>
                      match continuation n rest0 with
                      | None => None
                      | Some (bs, rest1) =>
                          if wellFormed b0 bs then
                            option_map
                              (app (map ascii_of_nat (b0 :: bs)))
                              (decode fuel' rest1)
                          else None
                      end
                  end
            end
          else option_map (cons c) (decode fuel' rest)
      end
  end.

Definition decodeURIComponent (s : string) : option string :=
  option_map JsString.of_chars
             (decode (String.length s) (JsString.chars s)).

End Uri.

(** A platform to run the model on: the pipeline wraps the source text in
    one paragraph and fails on the empty document. *)
Definition samplePlatform : Platform :=
  {| cwd := "/home/u";
     decodeURIComponent := Uri.decodeURIComponent;
     unified_process := fun _ content =>
       if String.eqb content "" then Throw (SysError "cannot process")
       else Ok ("<p>" ++ content ++ "</p>");
     cssPath := "/opt/mdserve/node_modules/github-markdown-css/github-markdown.css" |}.

(** A file system holding [/docs/readme.md] with the given size and text,
    in which every path is accessible. *)
Definition sampleFS (size : Z) (text : string) : FS :=
  {| stat_size := fun p =>
       if String.eqb p "/docs/readme.md" then Ok size
       else Throw (SysError "ENOENT");
     readFile := fun p =>
       if String.eqb p "/docs/readme.md" then Ok text
       else Throw (SysError "ENOENT");
     access_R_OK := fun _ => Ok tt |}.

(** [/docs/readme.md], five bytes long. *)
Definition docsFS : FS := sampleFS 5 "hello".

(** A command-line environment in which the browser opens. *)
Definition sampleEnv : Cli.Env :=
  {| Cli.parseInt10 := Cli.parseIntAscii;
     Cli.toLowerCase := Mime.toLowerCase;
     Cli.openBrowser := fun _ => Ok tt |}.

Definition watchOn : Options := {| o_port := None; o_watch := Some true |}.
Definition watchOff : Options := {| o_port := None; o_watch := None |}.

(** ** Notions the properties are stated with *)

Module Notions.
Import JsString.

(** The non-empty [/]-separated segments of a path. *)
Definition segments (p : string) : list string :=
  filter (fun seg => negb (String.eqb seg "")) (split_on Path.slash p).

Fixpoint isPrefixOf (a b : list string) : bool :=
  match a, b with
  | [], _ => true
  | _ :: _, [] => false
  | x :: a', y :: b' => String.eqb x y && isPrefixOf a' b'
  end.

(** A path stays inside a directory when it is the directory or lies
    below it; it escapes the directory otherwise. *)
Definition insideDir (dir p : string) : bool :=
  isPrefixOf (segments dir) (segments p).
Definition escapesDir (dir p : string) : bool := negb (insideDir dir p).

(** [c] occurs in [s]. *)
Fixpoint occurs (c : ascii) (s : string) : bool :=
  match s with
  | EmptyString => false
  | String c' s' => Ascii.eqb c' c || occurs c s'
  end.

(** The entity of a character that HTML gives a meaning to. *)
Definition entity (c : ascii) : option string :=
  if Ascii.eqb c "&" then Some "&amp;"
  else if Ascii.eqb c "<" then Some "&lt;"
  else if Ascii.eqb c ">" then Some "&gt;"
  else if Ascii.eqb c "034" then Some "&quot;"
  else if Ascii.eqb c "'" then Some "&#39;"
  else None.

(** [Escaped text out]: [out] is [text] with each of the five characters
    replaced by its entity and every other character kept. *)
Inductive Escaped : string -> string -> Prop :=
| Escaped_nil : Escaped "" ""
| Escaped_entity c e text out :
    entity c = Some e -> Escaped text out ->
    Escaped (String c text) (e ++ out)
| Escaped_keep c text out :
    entity c = None -> Escaped text out ->
    Escaped (String c text) (String c out).

(** A render is in progress in a handler until [updateRenderedHtml] has
    settled. *)
Definition rendering (e : nat * Phase) : bool :=
  match snd e with
  | AwaitRender | AwaitGenerate _ _ => true
  | AwaitUpdate _ => false
  end.

Definition rendersInProgress (s : Server) : nat :=
  List.length (filter rendering (handlers s)).

(** The calls of [renderMarkdown] in a trace. *)
Definition isRenderCall (e : Effect) : bool :=
  match e with CallRenderMarkdown _ => true | _ => false end.
Definition rendersStarted (t : list Effect) : nat :=
  List.length (filter isRenderCall t).

(** The viewers a chunk was written to, in a trace. *)
Definition writtenTo (t : list Effect) : list Res :=
  flat_map (fun e => match e with
                     | ClientWrite c _ _ => [c]
                     | _ => []
                     end) t.

Definition isListen (e : Effect) : bool :=
  match e with Listen _ => true | _ => false end.

Definition raises (o : WriteOutcome) : bool :=
  match o with Raised _ => true | _ => false end.

(** The cached document is the template filled with rendered content. *)
Definition Generated (s : Server) : Prop :=
  exists renderedContent githubCss,
    cachedHtml s = Some (HtmlTemplate.generateHtml renderedContent
                           (generateOptions (config s)) githubCss).

(** The style sheet a handler gets that waits for [generateHtml], and the
    module variable afterwards. *)
Definition loadedCss (P : Platform) (s : Server) (cssHit : option string)
           (fs : FS) : string * option string :=
  match cssHit with
  | Some css => (css, githubMarkdownCss s)
  | None => HtmlTemplate.cssCacheMiss P fs (githubMarkdownCss s)
  end.

(** Everything written to a response that stays open, with the response
    it went to: the chunks of the notify loop and the comment written to a
    viewer when it subscribes. *)
Definition chunksWritten (t : list Effect) : list (Res * string) :=
  flat_map (fun e => match e with
                     | ClientWrite c chunk _ => [(c, chunk)]
                     | Respond res r =>
                         match body r with
                         | EventStream written => [(res, written)]
                         | _ => []
                         end
                     | _ => []
                     end) t.

(** What the read stream of an asset does once it is piped to the
    response: it ends after the content of the file, or it emits ['error']
    after a part of it (at once for a directory). *)
Inductive StreamOutcome : Type :=
| StreamEnds (content : string)
| StreamFails (piped : string) (e : Error).

(** The status and the body a client receives, given what the read stream
    does when the body is a file stream.  [writeHead(200)] has run before
    the stream is created, so [res.headersSent] holds in the ['error']
    listener of the stream: the status stays, and the text of the listener
    ends the body. *)
Definition received (r : Response) (o : StreamOutcome) : nat * string :=
  match body r with
  | Text chunk => (status r, chunk)
  | EventStream written => (status r, written)
  | FileStream _ =>
      match o with
      | StreamEnds content => (status r, content)
      | StreamFails piped _ =>
          let headersSent := true in
          (if headersSent then status r else 500,
           piped ++ "500 Internal Server Error")
      end
  end.

(** Calls of [loadGithubMarkdownCss] one after the other, each started
    after the one before it has returned; [fss] answers their reads.  The
    strings returned, and the module variable at the end. *)
Fixpoint loadsInTurn (P : Platform) (v : option string) (fss : list FS)
  : list string * option string :=
  match fss with
  | [] => ([], v)
  | fs :: rest =>
      let '(css, v') := HtmlTemplate.loadGithubMarkdownCss P fs v in
      let '(more, v'') := loadsInTurn P v' rest in
      (css :: more, v'')
  end.

(** Handler numbers are below [nextHandler]. *)
Definition Fresh (s : Server) : Prop :=
  Forall (fun e => fst e < nextHandler s) (handlers s).

(** The states of a server that [createServer] returned, after any
    sequence of events. *)
Definition Reachable (P : Platform) (s : Server) : Prop :=
  exists filePath options fs listen s0 evs,
    snd (createServer P filePath options fs listen) = Ok s0
    /\ s = run P s0 evs.

End Notions.

Import Notions.

(** ** Statements that are put to the test, and the scenarios used *)

(** The statement that renders never overlap. *)
Definition RendersSerialized (P : Platform) : Prop :=
  forall s, Reachable P s -> rendersInProgress s <= 1.

(** The statement that a failed delivery is isolated: the viewer whose
    write fails leaves the set, and every other viewer is written to. *)
Definition NotifyIsolatesFailures (P : Platform) : Prop :=
  forall s h html writes c,
    Reachable P s ->
    phase_of (handlers s) h = Some (AwaitUpdate (Ok html)) ->
    In c (sseClients s) ->
    writes c <> Delivered ->
    let s' := step P s (EvResume h writes) in
    ~ In c (sseClients s')
    /\ forall c', In c' (sseClients s) -> c' <> c ->
                  In c' (writtenTo (skipn (List.length (trace s)) (trace s'))).

(** Three viewers subscribe, the file changes and the render succeeds. *)
Definition threeViewersNotified (s0 : Server) : Server :=
  run samplePlatform s0
      [EvRequest 1 "/events" docsFS;
       EvRequest 2 "/events" docsFS;
       EvRequest 3 "/events" docsFS;
       EvFileChange;
       EvRenderSettled 0 (sampleFS 6 "hello2");
       EvGenerateSettled 0 (sampleFS 6 "hello2")].

(** The write to viewer 2 throws. *)
Definition secondThrows (c : Res) : WriteOutcome :=
  if Nat.eqb c 2 then Raised (SysError "EPIPE") else Delivered.

(** The write to viewer 2 is lost without an exception. *)
Definition secondLost (c : Res) : WriteOutcome :=
  if Nat.eqb c 2 then Lost else Delivered.

(** The server has been closed: it does not listen and its watcher does
    not run. *)
Definition Closed (s : Server) : Prop :=
  listening s = false /\ watching s = false.

(** No watcher runs and no handler is suspended. *)
Definition Still (s : Server) : Prop :=
  watching s = false /\ handlers s = [].

(** Two changes in a row; the render of the first reads the old text, the
    render of the second the new text. *)
Definition twoRendersPending (s0 : Server) : Server :=
  run samplePlatform s0
      [EvFileChange; EvFileChange;
       EvRenderSettled 0 (sampleFS 3 "old");
       EvRenderSettled 1 (sampleFS 3 "new")].

(** * Properties *)

(** ** Sanity checks of the platform model *)

Example resolve_docs_img :
  Path.resolve "/home/u" ["/docs"; "./img/a.png"] = "/docs/img/a.png".
Proof. reflexivity. Qed.

Example resolve_docs_passwd :
  Path.resolve "/home/u" ["/docs"; "../../etc/passwd"] = "/etc/passwd".
Proof. reflexivity. Qed.

Example resolve_relative_file :
  Path.resolve "/home/u" ["notes/../readme.md"] = "/home/u/readme.md".
Proof. reflexivity. Qed.

Example dirname_docs : Path.dirname "/docs/readme.md" = "/docs".
Proof. reflexivity. Qed.

Example dirname_root_file : Path.dirname "/readme.md" = "/".
Proof. reflexivity. Qed.

Example basename_docs : Path.basename "/docs/readme.md" = "readme.md".
Proof. reflexivity. Qed.

Example decode_escaped_slash :
  Uri.decodeURIComponent "..%2Fa%20b" = Some "../a b".
Proof. reflexivity. Qed.

Example decode_malformed : Uri.decodeURIComponent "%zz" = None.
Proof. reflexivity. Qed.

Example rewrite_relative_url :
  RenderMarkdown.remarkRelativePathResolver "./img/a.png" = "/assets/./img/a.png"
  /\ RenderMarkdown.remarkRelativePathResolver "https://x.org/a.png"
     = "https://x.org/a.png"
  /\ RenderMarkdown.remarkRelativePathResolver "#top" = "#top".
Proof. repeat split. Qed.

(** ** The renderer *)

Section Renderer.
Variable P : Platform.
Import RenderMarkdown.

Lemma renderMarkdown_stat_fails fs path e :
  stat_size fs path = Throw e -> renderMarkdown P fs path = Throw e.
Proof. intros H. unfold renderMarkdown. now rewrite H. Qed.

Lemma renderMarkdown_too_large fs path size :
  stat_size fs path = Ok size -> (size > MAX_FILE_SIZE)%Z ->
  renderMarkdown P fs path = Throw (FileTooLarge size).
Proof.
  intros H Hgt. unfold renderMarkdown. rewrite H.
  destruct (Z.gtb_spec size MAX_FILE_SIZE); [reflexivity | lia].
Qed.

Lemma renderMarkdown_within_limit fs path size :
  stat_size fs path = Ok size -> (size <= MAX_FILE_SIZE)%Z ->
  renderMarkdown P fs path =
  match readFile fs path with
  | Throw e => Throw e
  | Ok content => unified_process P remarkRelativePathResolver content
  end.
Proof.
  intros H Hle. unfold renderMarkdown. rewrite H.
  destruct (Z.gtb_spec size MAX_FILE_SIZE); [lia | reflexivity].
Qed.

End Renderer.

(** C7. [renderMarkdown] throws when the size reported by [stat] exceeds
    [MAX_FILE_SIZE], which is 10 MiB (10485760 bytes), and when the file
    cannot be read ([stat] or [readFile] throws); at or under the limit the
    size check passes: the file is read and its text goes through the
    pipeline, whose result is the result of the call. *)
Theorem renderMarkdown_size_limit :
  forall (P : Platform) (fs : FS) (path : string),
    RenderMarkdown.MAX_FILE_SIZE = (10 * 2 ^ 20)%Z
    /\ match stat_size fs path with
       | Throw e => RenderMarkdown.renderMarkdown P fs path = Throw e
       | Ok size =>
           ((size > 10 * 2 ^ 20)%Z ->
            RenderMarkdown.renderMarkdown P fs path = Throw (FileTooLarge size))
           /\ ((size <= 10 * 2 ^ 20)%Z ->
               match readFile fs path with
               | Throw e => RenderMarkdown.renderMarkdown P fs path = Throw e
               | Ok content =>
                   RenderMarkdown.renderMarkdown P fs path =
                   unified_process P RenderMarkdown.remarkRelativePathResolver
                                   content
               end)
       end.
Proof.
  intros P fs path. split; [reflexivity|].
  destruct (stat_size fs path) as [size|e] eqn:Hstat.
  - split; intros Hsz.
    + apply renderMarkdown_too_large; [assumption|].
      change RenderMarkdown.MAX_FILE_SIZE with (10 * 2 ^ 20)%Z. exact Hsz.
    + rewrite (renderMarkdown_within_limit P fs path size Hstat).
      * destruct (readFile fs path); reflexivity.
      * change RenderMarkdown.MAX_FILE_SIZE with (10 * 2 ^ 20)%Z. exact Hsz.
  - now apply renderMarkdown_stat_fails.
Qed.

(** A file of 10 MiB is rendered, one byte more is refused, and a file
    that does not exist is refused. *)
Lemma renderMarkdown_size_limit_witness :
  RenderMarkdown.renderMarkdown samplePlatform (sampleFS 10485760 "# t")
                                "/docs/readme.md" = Ok "<p># t</p>"
  /\ RenderMarkdown.renderMarkdown samplePlatform (sampleFS 10485761 "# t")
                                   "/docs/readme.md"
     = Throw (FileTooLarge 10485761)
  /\ RenderMarkdown.renderMarkdown samplePlatform (sampleFS 3 "# t")
                                   "/docs/missing.md"
     = Throw (SysError "ENOENT").
Proof.
  pose proof (renderMarkdown_size_limit samplePlatform
                (sampleFS 10485760 "# t") "/docs/readme.md") as [_ H1].
  pose proof (renderMarkdown_size_limit samplePlatform
                (sampleFS 10485761 "# t") "/docs/readme.md") as [_ H2].
  pose proof (renderMarkdown_size_limit samplePlatform
                (sampleFS 3 "# t") "/docs/missing.md") as [_ H3].
  cbn in H1, H2, H3.
  destruct H1 as [_ H1]. destruct H2 as [H2 _].
  split; [|split].
  - apply H1. lia.
  - apply H2. lia.
  - exact H3.
Defined.

(** ** The page template *)

Lemma append_assoc (a b c : string) : (a ++ b) ++ c = a ++ (b ++ c).
Proof. induction a as [|x a IH]; simpl; [reflexivity | now rewrite IH]. Qed.

Section Template.
Import HtmlTemplate.

Lemma occurs_app c a b : occurs c (a ++ b) = occurs c a || occurs c b.
Proof.
  induction a as [|c' a IH]; simpl; [reflexivity|].
  now rewrite IH, orb_assoc.
Qed.

Lemma escapeChar_entity c :
  escapeChar c = match entity c with
                 | Some e => e
                 | None => String c EmptyString
                 end.
Proof.
  unfold escapeChar, entity.
  repeat match goal with
         | |- context [Ascii.eqb c ?x] => destruct (Ascii.eqb c x)
         end; reflexivity.
Qed.

Lemma escapeHtml_Escaped text : Escaped text (escapeHtml text).
Proof.
  induction text as [|c text IH]; simpl.
  - constructor.
  - rewrite escapeChar_entity.
    destruct (entity c) as [e|] eqn:He.
    + now apply Escaped_entity.
    + now apply Escaped_keep.
Qed.

(** A character of [escapeChar c] other than the ampersand is none of the
    four remaining characters. *)
Lemma escapeChar_clean c x :
  In x ["<"; ">"; "034"; "'"]%char -> occurs x (escapeChar c) = false.
Proof.
  intros Hx. unfold escapeChar.
  destruct (Ascii.eqb_spec c "&"); [|destruct (Ascii.eqb_spec c "<");
    [|destruct (Ascii.eqb_spec c ">"); [|destruct (Ascii.eqb_spec c "034");
      [|destruct (Ascii.eqb_spec c "'")]]]];
    simpl in Hx;
    destruct Hx as [<-|[<-|[<-|[<-|[]]]]]; try reflexivity;
    simpl; rewrite orb_false_r; now apply Ascii.eqb_neq.
Qed.

Lemma escapeHtml_clean text x :
  In x ["<"; ">"; "034"; "'"]%char -> occurs x (escapeHtml text) = false.
Proof.
  intros Hx. induction text as [|c text IH]; simpl; [reflexivity|].
  rewrite occurs_app, IH, (escapeChar_clean c x Hx). reflexivity.
Qed.

Lemma escapeHtml_app a b : escapeHtml (a ++ b) = escapeHtml a ++ escapeHtml b.
Proof.
  induction a as [|c a IH]; simpl; [reflexivity|].
  now rewrite IH, append_assoc.
Qed.

Lemma documentHead_title : exists before, documentHead = before ++ "<title>".
Proof.
  exists (String.substring 0
            (String.length documentHead - String.length "<title>")
            documentHead).
  vm_compute. reflexivity.
Qed.

Lemma documentRest_title githubCss renderedContent w :
  exists after,
    documentRest githubCss renderedContent w = "</title>" ++ after.
Proof.
  unfold documentRest, lines. cbn [JsString.join].
  eexists. reflexivity.
Qed.

End Template.

Example escapeHtml_closing_tag :
  HtmlTemplate.escapeHtml "</title><script>&'"
  = "&lt;/title&gt;&lt;script&gt;&amp;&#39;".
Proof. reflexivity. Qed.

(** C9. In the document [generateHtml] builds for a filename, the text
    between [<title>] and [</title>] is [escapeHtml] of the filename: the
    filename with each of the five characters (ampersand, less-than,
    greater-than, double quote, single quote) replaced by its entity and
    every other character kept; no less-than, greater-than or quote
    character occurs in it, so it cannot open or close a tag. *)
Theorem title_is_escaped_filename :
  forall (renderedContent name githubCss : string) (w : option bool),
    let title := HtmlTemplate.escapeHtml name in
    (exists before after,
        HtmlTemplate.generateHtml renderedContent
          {| HtmlTemplate.opt_filename := Some name;
             HtmlTemplate.opt_watch := w |} githubCss
        = before ++ "<title>" ++ title ++ "</title>" ++ after
        /\ before ++ "<title>" = HtmlTemplate.documentHead)
    /\ Escaped name title
    /\ occurs "<" title = false
    /\ occurs ">" title = false
    /\ occurs "034" title = false
    /\ occurs "'" title = false.
Proof.
  intros renderedContent name githubCss w title.
  split; [|split; [apply escapeHtml_Escaped|]].
  - destruct documentHead_title as [before Hbefore].
    destruct (documentRest_title githubCss renderedContent
                (match w with Some b => b | None => false end))
      as [after Hafter].
    exists before, after. split; [|symmetry; exact Hbefore].
    unfold HtmlTemplate.generateHtml. cbn [HtmlTemplate.opt_filename
                                             HtmlTemplate.opt_watch].
    fold title. rewrite Hbefore, Hafter, append_assoc. reflexivity.
  - repeat split; apply escapeHtml_clean; simpl; tauto.
Qed.

(** ** The server: what a step preserves *)

(** Case analysis on a scrutinee that holds no other case analysis. *)
Ltac break_match :=
  match goal with
  | |- context [match ?x with _ => _ end] =>
      lazymatch x with
      | context [match _ with _ => _ end] => fail
      | _ => destruct x eqn:?
      end
  end.

Ltac unfold_step :=
  unfold step, requestHandler, onChange, onRenderSettled, onGenerateSettled,
         onResume, close, emit, with_handlers, with_clients, with_cachedHtml,
         with_css, with_shutdown.

Section StepFacts.
Variable P : Platform.

Lemma run_app s evs evs' :
  run P s (evs ++ evs')%list = run P (run P s evs) evs'.
Proof. unfold run. apply fold_left_app. Qed.

Lemma run_snoc s evs ev : run P s (evs ++ [ev])%list = step P (run P s evs) ev.
Proof. now rewrite run_app. Qed.

(** An invariant of [step] that holds of the result of [createServer]
    holds of every reachable state. *)
Lemma Reachable_ind_step (Inv : Server -> Prop) :
  (forall filePath options fs listen s0,
      snd (createServer P filePath options fs listen) = Ok s0 -> Inv s0) ->
  (forall s ev, Inv s -> Inv (step P s ev)) ->
  forall s, Reachable P s -> Inv s.
Proof.
  intros Hinit Hstep s (filePath & options & fs & listen & s0 & evs & H0 & ->).
  induction evs as [|ev evs IH] using rev_ind.
  - simpl. eapply Hinit; eassumption.
  - rewrite run_snoc. apply Hstep, IH.
Qed.

Lemma Reachable_step s ev : Reachable P s -> Reachable P (step P s ev).
Proof.
  intros (filePath & options & fs & listen & s0 & evs & H0 & ->).
  exists filePath, options, fs, listen, s0, (evs ++ [ev])%list.
  split; [assumption | now rewrite run_snoc].
Qed.

Lemma step_config s ev : config (step P s ev) = config s.
Proof.
  destruct ev; unfold_step; repeat break_match; reflexivity.
Qed.

Lemma step_cachedHtml_set s ev :
  cachedHtml s <> None -> cachedHtml (step P s ev) <> None.
Proof.
  intros H. destruct ev; unfold_step; repeat break_match;
    simpl; solve [assumption | discriminate].
Qed.

Lemma createServer_Ok filePath options fs listen s0 :
  snd (createServer P filePath options fs listen) = Ok s0 ->
  exists renderedContent githubCss,
    RenderMarkdown.renderMarkdown P fs
      (absoluteFilePath (makeConfig P filePath options)) = Ok renderedContent
    /\ listen = Listening
    /\ config s0 = makeConfig P filePath options
    /\ cachedHtml s0 =
       Some (HtmlTemplate.generateHtml renderedContent
               (generateOptions (makeConfig P filePath options)) githubCss)
    /\ sseClients s0 = []
    /\ handlers s0 = []
    /\ listening s0 = true
    /\ trace s0 = fst (createServer P filePath options fs listen).
Proof.
  unfold createServer.
  destruct (RenderMarkdown.renderMarkdown P fs _) as [content|e] eqn:Hr;
    [|discriminate].
  destruct (HtmlTemplate.loadGithubMarkdownCss P fs None) as [css var].
  destruct listen; simpl; [|discriminate].
  intros [= <-]. exists content, css. simpl. repeat split; reflexivity.
Qed.

(** A reachable server always holds a snapshot. *)
Lemma Reachable_cachedHtml s : Reachable P s -> cachedHtml s <> None.
Proof.
  apply (Reachable_ind_step (fun s => cachedHtml s <> None)).
  - intros filePath options fs listen s0 H0.
    destruct (createServer_Ok _ _ _ _ _ H0)
      as (content & css & _ & _ & _ & Hc & _).
    rewrite Hc. discriminate.
  - intros s' ev. apply step_cachedHtml_set.
Qed.

Lemma step_generated s ev :
  Generated s -> Generated (step P s ev).
Proof.
  unfold Generated. intros (content & css & Hc).
  destruct ev; unfold_step; repeat break_match; simpl;
    solve [ exists content, css; exact Hc
          | eexists; eexists; reflexivity ].
Qed.

(** The snapshot of a reachable server is a complete document: the
    template filled with the output of a render that succeeded. *)
Lemma Reachable_generated s : Reachable P s -> Generated s.
Proof.
  apply (Reachable_ind_step Generated).
  - intros filePath options fs listen s0 H0.
    destruct (createServer_Ok _ _ _ _ _ H0)
      as (content & css & _ & _ & Hcfg & Hc & _).
    exists content, css. now rewrite Hcfg.
  - apply step_generated.
Qed.

End StepFacts.

(** ** Requests *)

Section Requests.
Variable P : Platform.

Lemma requestHandler_root s fs res :
  requestHandler P s fs res "/"
  = (s, {| status := 200; body := endWith (cachedHtml s) |}).
Proof. reflexivity. Qed.

(** The 403 branch is taken exactly when the resolved path does not start
    with the characters of [baseDir]. *)
Lemma serveAsset_forbidden c fs url relativePath :
  decodeURIComponent P (JsString.slice 8 url) = Some relativePath ->
  JsString.startsWith (Path.resolve (cwd P) [baseDir c; relativePath])
                      (baseDir c) = false ->
  serveAsset P c fs url = forbidden.
Proof.
  intros Hd Hp. unfold serveAsset. simpl String.length.
  now rewrite Hd, Hp.
Qed.

Lemma serveAsset_streams c fs url path :
  serveAsset P c fs url = {| status := 200; body := FileStream path |} ->
  JsString.startsWith path (baseDir c) = true
  /\ access_R_OK fs path = Ok tt.
Proof.
  unfold serveAsset, notFound, forbidden.
  destruct (decodeURIComponent P _) as [rel|]; [|discriminate].
  destruct (JsString.startsWith _ (baseDir c)) eqn:Hp; simpl; [|discriminate].
  destruct (access_R_OK fs _) as [[]|] eqn:Ha; [|discriminate].
  intros [= <-]. now split.
Qed.

Lemma step_without_watch s ev :
  watch (config s) = false -> sseClients s = [] ->
  sseClients (step P s ev) = [].
Proof.
  intros Hw Hs.
  destruct ev; unfold_step; rewrite ?Hw, ?Hs; simpl;
    repeat break_match; simpl; rewrite ?Hs; try reflexivity;
    repeat match goal with
           | H : (_, _) = (_, _) |- _ => injection H as <- <-
           end; assumption.
Qed.

End Requests.

(** The two references of the specification, for a file in [/docs]:
    [../../etc/passwd] is answered 403 whatever the file system holds, and
    [./img/a.png] resolves to [/docs/img/a.png] and is streamed when it is
    readable. *)
Lemma asset_examples :
  forall fs : FS,
    let c := makeConfig samplePlatform "/docs/readme.md" watchOff in
    baseDir c = "/docs"
    /\ serveAsset samplePlatform c fs "/assets/../../etc/passwd" = forbidden
    /\ (access_R_OK fs "/docs/img/a.png" = Ok tt ->
        serveAsset samplePlatform c fs "/assets/./img/a.png"
        = {| status := 200; body := FileStream "/docs/img/a.png" |}).
Proof.
  intros fs c. split; [reflexivity|]. split; [reflexivity|].
  intros Ha. unfold serveAsset.
  replace (decodeURIComponent samplePlatform _) with (Some "./img/a.png")
    by reflexivity.
  replace (Path.resolve _ [baseDir c; "./img/a.png"]) with "/docs/img/a.png"
    by reflexivity.
  replace (JsString.startsWith "/docs/img/a.png" (baseDir c)) with true
    by reflexivity.
  simpl negb. cbv iota. now rewrite Ha.
Qed.

(** C1. For a markdown file in [/docs], the request
    [/assets/../docs-evil/secret.txt] resolves to [/docs-evil/secret.txt],
    which lies outside [/docs]; the path passes the [startsWith] test, and
    the file is streamed with status 200 instead of being refused with
    403. *)
Theorem asset_sibling_directory_served :
  exists s0,
    snd (createServer samplePlatform "/docs/readme.md" watchOff docsFS Listening)
    = Ok s0
    /\ baseDir (config s0) = "/docs"
    /\ Path.resolve (cwd samplePlatform) ["/docs"; "../docs-evil/secret.txt"]
       = "/docs-evil/secret.txt"
    /\ escapesDir "/docs" "/docs-evil/secret.txt" = true
    /\ snd (requestHandler samplePlatform s0 docsFS 1
                           "/assets/../docs-evil/secret.txt")
       = {| status := 200; body := FileStream "/docs-evil/secret.txt" |}.
Proof.
  eexists. split; [vm_compute; reflexivity|].
  repeat split.
Qed.

(** C6. In every state of a started server a request for [/] is answered
    200 with exactly the cached document, which is a complete document made
    by [generateHtml]; handling the request changes nothing but the trace,
    to which the response is added: no render is started, no handler is
    created, the snapshot is not touched. *)
Theorem root_serves_cached_snapshot :
  forall (P : Platform) (s : Server) (fs : FS) (res : Res),
    Reachable P s ->
    exists html,
      cachedHtml s = Some html
      /\ Generated s
      /\ requestHandler P s fs res "/"
         = (s, {| status := 200; body := Text html |})
      /\ (listening s = true ->
          step P s (EvRequest res "/" fs)
          = emit s [Respond res {| status := 200; body := Text html |}])
      /\ rendersStarted (trace (step P s (EvRequest res "/" fs)))
         = rendersStarted (trace s)
      /\ handlers (step P s (EvRequest res "/" fs)) = handlers s
      /\ cachedHtml (step P s (EvRequest res "/" fs)) = Some html.
Proof.
  intros P s fs res Hs.
  destruct (cachedHtml s) as [html|] eqn:Hc;
    [|now apply Reachable_cachedHtml in Hs].
  exists html. split; [reflexivity|].
  split; [now apply (Reachable_generated P)|].
  assert (Hrh : requestHandler P s fs res "/"
                = (s, {| status := 200; body := Text html |})).
  { rewrite requestHandler_root, Hc. reflexivity. }
  split; [exact Hrh|].
  unfold step. rewrite Hrh.
  repeat split; simpl; try assumption.
  unfold rendersStarted. rewrite filter_app. simpl. now rewrite app_nil_r.
Qed.

Lemma root_serves_cached_snapshot_witness :
  exists s0 html,
    snd (createServer samplePlatform "/docs/readme.md" watchOn docsFS Listening)
    = Ok s0
    /\ cachedHtml s0 = Some html
    /\ requestHandler samplePlatform s0 docsFS 7 "/"
       = (s0, {| status := 200; body := Text html |}).
Proof.
  destruct (snd (createServer samplePlatform "/docs/readme.md" watchOn docsFS
                              Listening)) as [s0|e] eqn:H0;
    [|vm_compute in H0; discriminate H0].
  assert (Hr : Reachable samplePlatform s0).
  { exists "/docs/readme.md", watchOn, docsFS, Listening, s0, []. now split. }
  destruct (root_serves_cached_snapshot samplePlatform s0 docsFS 7 Hr)
    as (html & Hc & _ & Hrh & _).
  exists s0, html. repeat split; assumption.
Defined.

(** C10. A server created without watch mode answers [/events] with the
    404 of unknown routes, leaves its state as it is, and its set of
    viewers is empty after every sequence of events. *)
Theorem events_endpoint_needs_watch :
  forall (P : Platform) (filePath : string) (options : Options) (fs : FS)
         (listen : ListenOutcome) (s0 : Server) (evs : list Event),
    o_watch options <> Some true ->
    snd (createServer P filePath options fs listen) = Ok s0 ->
    let s := run P s0 evs in
    sseClients s = []
    /\ forall fs' res,
        requestHandler P s fs' res "/events" = (s, notFound)
        /\ sseClients (step P s (EvRequest res "/events" fs')) = [].
Proof.
  intros P filePath options fs listen s0 evs Hopt H0 s.
  destruct (createServer_Ok _ _ _ _ _ _ H0)
    as (content & css & _ & _ & Hcfg & _ & Hcl & _).
  assert (Hw0 : watch (config s0) = false).
  { rewrite Hcfg. simpl. destruct (o_watch options) as [[|]|]; congruence. }
  assert (Hinv : watch (config s) = false /\ sseClients s = []).
  { subst s. induction evs as [|ev evs IH] using rev_ind; [now split|].
    rewrite run_snoc. destruct IH as [IHw IHs]. split.
    - now rewrite step_config.
    - now apply step_without_watch. }
  destruct Hinv as [Hw Hs]. split; [exact Hs|].
  intros fs' res. split.
  - unfold requestHandler. rewrite Hw. reflexivity.
  - now apply step_without_watch.
Qed.

Lemma events_endpoint_needs_watch_witness :
  exists s0,
    snd (createServer samplePlatform "/docs/readme.md" watchOff docsFS Listening)
    = Ok s0
    /\ sseClients (run samplePlatform s0
                       [EvRequest 1 "/events" docsFS;
                        EvRequest 2 "/events" docsFS])
       = [].
Proof.
  destruct (snd (createServer samplePlatform "/docs/readme.md" watchOff docsFS
                              Listening)) as [s0|e] eqn:H0;
    [|vm_compute in H0; discriminate H0].
  exists s0. split; [reflexivity|].
  refine (proj1 (events_endpoint_needs_watch samplePlatform "/docs/readme.md"
                   watchOff docsFS Listening s0 _ _ H0)).
  simpl. discriminate.
Defined.

(** ** The set of viewers *)

Section Viewers.
Import SetOps.

Lemma delete_idempotent l x : delete (delete l x) x = delete l x.
Proof.
  unfold delete. induction l as [|y l IH]; simpl; [reflexivity|].
  destruct (Nat.eqb y x) eqn:E; simpl; [exact IH|].
  rewrite E. simpl. now rewrite IH.
Qed.

Lemma delete_absent l x : has l x = false -> delete l x = l.
Proof.
  unfold has, delete. induction l as [|y l IH]; simpl; [reflexivity|].
  rewrite orb_false_iff. intros [Hy Hl].
  rewrite Nat.eqb_sym, Hy. simpl. now rewrite IH.
Qed.

Lemma has_delete l x : has (delete l x) x = false.
Proof.
  unfold has, delete. induction l as [|y l IH]; simpl; [reflexivity|].
  destruct (Nat.eqb y x) eqn:E; simpl; [exact IH|].
  now rewrite Nat.eqb_sym, E, IH.
Qed.

End Viewers.

(** C8. Removing a viewer is idempotent and never fails: [delete] is a
    total function, a second [delete] of the same handle changes nothing,
    [delete] of a handle that is not in the set returns the set as it is;
    a second ['close'] event for a connection leaves the server as the
    first one left it, and a ['close'] event that arrives after [close()]
    has cleared the set changes nothing. *)
Theorem unsubscribe_idempotent :
  forall (P : Platform) (s : Server) (res : Res),
    SetOps.delete (SetOps.delete (sseClients s) res) res
    = SetOps.delete (sseClients s) res
    /\ SetOps.has (SetOps.delete (sseClients s) res) res = false
    /\ (SetOps.has (sseClients s) res = false ->
        SetOps.delete (sseClients s) res = sseClients s)
    /\ step P (step P s (EvConnClose res)) (EvConnClose res)
       = step P s (EvConnClose res)
    /\ step P (step P s EvClose) (EvConnClose res) = step P s EvClose.
Proof.
  intros P s res.
  split; [apply delete_idempotent|].
  split; [apply has_delete|].
  split; [apply delete_absent|].
  split.
  - unfold step.
    destruct (SetOps.has (closeListeners s) res) eqn:Hl; simpl; rewrite Hl.
    + unfold with_clients. simpl. now rewrite delete_idempotent.
    + reflexivity.
  - unfold step, close, emit, with_clients, with_shutdown. simpl.
    destruct (SetOps.has (closeListeners s) res); reflexivity.
Qed.

Lemma unsubscribe_idempotent_witness :
  exists s0,
    snd (createServer samplePlatform "/docs/readme.md" watchOn docsFS Listening)
    = Ok s0
    /\ sseClients (run samplePlatform s0
                       [EvRequest 1 "/events" docsFS;
                        EvRequest 2 "/events" docsFS;
                        EvConnClose 1; EvConnClose 1]) = [2]
    /\ SetOps.delete [2] 1 = [2].
Proof.
  destruct (snd (createServer samplePlatform "/docs/readme.md" watchOn docsFS
                              Listening)) as [s0|e] eqn:H0;
    [|vm_compute in H0; discriminate H0].
  exists s0. split; [reflexivity|].
  pose proof (unsubscribe_idempotent samplePlatform
                (run samplePlatform s0 [EvRequest 1 "/events" docsFS;
                                        EvRequest 2 "/events" docsFS]) 1)
    as (_ & _ & _ & Hstep & _).
  vm_compute in H0. injection H0 as <-.
  split.
  - change (run samplePlatform ?s [?a; ?b; ?c; ?d])
      with (step samplePlatform (step samplePlatform
              (run samplePlatform s [a; b]) c) d).
    rewrite Hstep. reflexivity.
  - reflexivity.
Defined.

(** ** Startup *)

(** C5. [createServer] calls [renderMarkdown] first.  When that render
    throws, [createServer] throws the same error and neither starts the
    watcher nor calls [listen].  When it succeeds, [listen] is the last
    action, after the render, and the server that is returned once
    [listen] succeeds is listening and holds the document generated from
    that render. *)
Theorem createServer_renders_before_listening :
  forall (P : Platform) (filePath : string) (options : Options) (fs : FS)
         (listen : ListenOutcome),
    let c := makeConfig P filePath options in
    let r := createServer P filePath options fs listen in
    match RenderMarkdown.renderMarkdown P fs (absoluteFilePath c) with
    | Throw e =>
        snd r = Throw e
        /\ fst r = [CallRenderMarkdown (absoluteFilePath c);
                    ConsoleError "Error rendering markdown:" e]
    | Ok renderedContent =>
        exists between githubCss,
          fst r = (CallRenderMarkdown (absoluteFilePath c) :: between
                   ++ [Listen (port c)])%list
          /\ existsb isListen between = false
          /\ match listen with
             | Listening =>
                 exists s0,
                   snd r = Ok s0
                   /\ listening s0 = true
                   /\ cachedHtml s0
                      = Some (HtmlTemplate.generateHtml renderedContent
                                (generateOptions c) githubCss)
             | ListenError _ _ => is_ok (snd r) = false
             end
    end.
Proof.
  intros P filePath options fs listen c r. subst r. unfold createServer.
  fold c.
  destruct (RenderMarkdown.renderMarkdown P fs (absoluteFilePath c))
    as [content|e]; [|split; reflexivity].
  destruct (HtmlTemplate.loadGithubMarkdownCss P fs None) as [css var].
  exists (if watch c then [WatcherStart] else []), css.
  destruct (watch c), listen; simpl; repeat split; eauto.
Qed.

Lemma createServer_renders_before_listening_witness :
  snd (createServer samplePlatform "/docs/readme.md" watchOn
                    (sampleFS 20000000 "hello") Listening)
  = Throw (FileTooLarge 20000000)
  /\ existsb isListen
       (fst (createServer samplePlatform "/docs/readme.md" watchOn
                          (sampleFS 20000000 "hello") Listening)) = false.
Proof.
  pose proof (createServer_renders_before_listening samplePlatform
                "/docs/readme.md" watchOn (sampleFS 20000000 "hello")
                Listening) as H.
  cbv zeta in H.
  change (RenderMarkdown.renderMarkdown samplePlatform _ _)
    with (@Throw string (FileTooLarge 20000000)) in H.
  cbv iota in H. destruct H as [H1 H2].
  split; [exact H1 | rewrite H2; reflexivity].
Defined.

(** ** The change handler *)

Section ChangeHandler.
Variable P : Platform.

Lemma phase_of_set_phase hs h ph0 ph :
  phase_of hs h = Some ph0 -> phase_of (set_phase hs h ph) h = Some ph.
Proof.
  induction hs as [|[h' ph'] hs IH]; simpl; [discriminate|].
  destruct (Nat.eqb h' h) eqn:E; simpl; rewrite E; auto.
Qed.

Lemma writtenTo_app t t' :
  writtenTo (t ++ t')%list = (writtenTo t ++ writtenTo t')%list.
Proof. unfold writtenTo. apply flat_map_app. Qed.

Lemma rendersStarted_app t t' :
  rendersStarted (t ++ t')%list = rendersStarted t + rendersStarted t'.
Proof. unfold rendersStarted. now rewrite filter_app, length_app. Qed.

Lemma writtenTo_writes (writes : Res -> WriteOutcome) clients :
  writtenTo (map (fun c => ClientWrite c reloadChunk (writes c)) clients)
  = clients.
Proof. induction clients as [|c l IH]; simpl; [reflexivity | now rewrite IH]. Qed.

(** The loop writes to every viewer when no write throws. *)
Lemma notifyLoop_all writes clients :
  (forall c, In c clients -> raises (writes c) = false) ->
  notifyLoop writes clients
  = (map (fun c => ClientWrite c reloadChunk (writes c)) clients, Ok tt).
Proof.
  induction clients as [|c l IH]; simpl; intros H; [reflexivity|].
  rewrite IH by auto.
  specialize (H c (or_introl eq_refl)).
  destruct (writes c); [reflexivity | reflexivity | discriminate].
Qed.

(** The loop ends at the first write that throws. *)
Lemma notifyLoop_raise writes before c after e :
  (forall x, In x before -> raises (writes x) = false) ->
  writes c = Raised e ->
  notifyLoop writes (before ++ c :: after)%list
  = (map (fun x => ClientWrite x reloadChunk (writes x)) (before ++ [c])%list,
     Throw e).
Proof.
  intros Hb Hc. induction before as [|x l IH]; simpl.
  - now rewrite Hc.
  - rewrite IH by (intros; apply Hb; now right).
    specialize (Hb x (or_introl eq_refl)).
    destruct (writes x); [reflexivity | reflexivity | discriminate].
Qed.

(** What a successful handler does when it resumes. *)
Lemma onResume_ok s h html writes :
  phase_of (handlers s) h = Some (AwaitUpdate (Ok html)) ->
  step P s (EvResume h writes)
  = emit (with_handlers s (drop_handler (handlers s) h) (nextHandler s))
         (ConsoleLog "Re-render complete"
          :: fst (notifyLoop writes (sseClients s))
          ++ match snd (notifyLoop writes (sseClients s)) with
             | Ok _ => []
             | Throw e =>
                 [ConsoleError "Error re-rendering after file change:" e]
             end)%list.
Proof.
  intros Hph. unfold step, onResume. rewrite Hph.
  destruct (notifyLoop writes (sseClients s)) as [effs loop]. reflexivity.
Qed.

Lemma onChange_rendersInProgress s :
  rendersInProgress (onChange s) = S (rendersInProgress s).
Proof.
  unfold rendersInProgress, onChange. simpl.
  rewrite filter_app, length_app. simpl. lia.
Qed.

Lemma onChange_watching s : watching (onChange s) = watching s.
Proof. reflexivity. Qed.

Lemma onChange_rendersStarted s :
  rendersStarted (trace (onChange s)) = S (rendersStarted (trace s)).
Proof.
  unfold onChange. simpl. rewrite rendersStarted_app. simpl.
  unfold rendersStarted at 2. simpl. lia.
Qed.

End ChangeHandler.

(** C2, as stated, fails: two change events in a row leave two renders in
    progress at once, and four change events that arrive before any render
    has settled start four renders, all in progress together. *)
Lemma change_events_start_overlapping_renders :
  (exists s0,
      snd (createServer samplePlatform "/docs/readme.md" watchOn docsFS
                        Listening) = Ok s0
      /\ rendersInProgress
           (run samplePlatform s0 [EvFileChange; EvFileChange]) = 2
      /\ rendersInProgress
           (run samplePlatform s0
                [EvFileChange; EvFileChange; EvFileChange; EvFileChange]) = 4
      /\ rendersStarted
           (trace (run samplePlatform s0
                       [EvFileChange; EvFileChange; EvFileChange; EvFileChange]))
         = 5)
  /\ ~ RendersSerialized samplePlatform.
Proof.
  assert (H : exists s0,
      snd (createServer samplePlatform "/docs/readme.md" watchOn docsFS
                        Listening) = Ok s0
      /\ rendersInProgress
           (run samplePlatform s0 [EvFileChange; EvFileChange]) = 2
      /\ rendersInProgress
           (run samplePlatform s0
                [EvFileChange; EvFileChange; EvFileChange; EvFileChange]) = 4
      /\ rendersStarted
           (trace (run samplePlatform s0
                       [EvFileChange; EvFileChange; EvFileChange; EvFileChange]))
         = 5).
  { eexists. split; [vm_compute; reflexivity|].
    split; [|split]; vm_compute; reflexivity. }
  split; [exact H|].
  destruct H as (s0 & H0 & H2 & _).
  intros Hser.
  specialize (Hser (run samplePlatform s0 [EvFileChange; EvFileChange])).
  rewrite H2 in Hser.
  assert (2 <= 1) as Habs; [|lia].
  apply Hser.
  exists "/docs/readme.md", watchOn, docsFS, Listening, s0,
    [EvFileChange; EvFileChange].
  now split.
Qed.

(** C2, amended.  While the watcher runs, every change event starts its own
    render at once, whatever is already in progress: [n] change events in a
    row add [n] renders in progress and [n] calls of [renderMarkdown]. *)
Theorem change_event_always_starts_render :
  forall (P : Platform) (s : Server) (n : nat),
    watching s = true ->
    let s' := run P s (repeat EvFileChange n) in
    rendersInProgress s' = rendersInProgress s + n
    /\ rendersStarted (trace s') = rendersStarted (trace s) + n
    /\ cachedHtml s' = cachedHtml s.
Proof.
  intros P s n. revert s.
  induction n as [|n IH]; intros s Hw; cbv zeta.
  - simpl. repeat split; lia.
  - change (run P s (repeat EvFileChange (S n)))
      with (run P (step P s EvFileChange) (repeat EvFileChange n)).
    replace (step P s EvFileChange) with (onChange s)
      by (unfold step; now rewrite Hw).
    destruct (IH (onChange s)) as (H1 & H2 & H3);
      [now rewrite onChange_watching|].
    rewrite H1, H2, H3, onChange_rendersInProgress, onChange_rendersStarted.
    repeat split; lia.
Qed.

Lemma change_event_always_starts_render_witness :
  exists s0,
    snd (createServer samplePlatform "/docs/readme.md" watchOn docsFS Listening)
    = Ok s0
    /\ watching s0 = true
    /\ rendersInProgress (run samplePlatform s0 (repeat EvFileChange 3))
       = rendersInProgress s0 + 3.
Proof.
  destruct (snd (createServer samplePlatform "/docs/readme.md" watchOn docsFS
                              Listening)) as [s0|e] eqn:H0;
    [|vm_compute in H0; discriminate H0].
  assert (Hw : watching s0 = true).
  { vm_compute in H0. injection H0 as <-. reflexivity. }
  exists s0. split; [reflexivity|]. split; [exact Hw|].
  exact (proj1 (change_event_always_starts_render samplePlatform s0 3 Hw)).
Defined.

(** C3, as stated, fails: with viewers 1, 2 and 3 subscribed, a write to
    viewer 2 that throws leaves viewer 2 in the set and ends the loop before
    viewer 3 is written to; a write to viewer 2 that is lost without an
    exception leaves viewer 2 in the set as well. *)
Lemma notify_failure_is_not_isolated :
  (exists s0,
      snd (createServer samplePlatform "/docs/readme.md" watchOn docsFS
                        Listening) = Ok s0
      /\ sseClients (threeViewersNotified s0) = [1; 2; 3]
      /\ sseClients (step samplePlatform (threeViewersNotified s0)
                          (EvResume 0 secondThrows)) = [1; 2; 3]
      /\ writtenTo (skipn (List.length (trace (threeViewersNotified s0)))
                          (trace (step samplePlatform (threeViewersNotified s0)
                                       (EvResume 0 secondThrows)))) = [1; 2]
      /\ sseClients (step samplePlatform (threeViewersNotified s0)
                          (EvResume 0 secondLost)) = [1; 2; 3])
  /\ ~ NotifyIsolatesFailures samplePlatform.
Proof.
  assert (H : exists s0,
      snd (createServer samplePlatform "/docs/readme.md" watchOn docsFS
                        Listening) = Ok s0
      /\ sseClients (threeViewersNotified s0) = [1; 2; 3]
      /\ sseClients (step samplePlatform (threeViewersNotified s0)
                          (EvResume 0 secondThrows)) = [1; 2; 3]
      /\ writtenTo (skipn (List.length (trace (threeViewersNotified s0)))
                          (trace (step samplePlatform (threeViewersNotified s0)
                                       (EvResume 0 secondThrows)))) = [1; 2]
      /\ sseClients (step samplePlatform (threeViewersNotified s0)
                          (EvResume 0 secondLost)) = [1; 2; 3]).
  { eexists. split; [vm_compute; reflexivity|].
    split; [|split; [|split]]; vm_compute; reflexivity. }
  split; [exact H|].
  destruct H as (s0 & H0 & Hcl & Hkept & _).
  intros Hiso.
  destruct (phase_of (handlers (threeViewersNotified s0)) 0)
    as [[| |[html|]]|] eqn:Hph;
    try (vm_compute in H0; injection H0 as <-; vm_compute in Hph;
         discriminate Hph).
  destruct (Hiso (threeViewersNotified s0) 0 html secondThrows 2) as [Hgone _].
  - exists "/docs/readme.md", watchOn, docsFS, Listening, s0. eexists.
    split; [exact H0 | reflexivity].
  - exact Hph.
  - rewrite Hcl. simpl. tauto.
  - discriminate.
  - apply Hgone. rewrite Hkept. simpl. tauto.
Qed.

(** C3, amended.  When a handler resumes after a successful render, the
    loop writes the reload chunk to the viewers in the order they
    subscribed and leaves the set of viewers and the cached document as
    they are.  A write that is lost without an exception does not stop the
    loop: when no write throws, every viewer is written to once.  The
    first write that throws ends the loop: the viewers before it and the
    one it was meant for have been written to, those after it have not,
    and the error is logged. *)
Theorem notify_writes_until_first_throw :
  forall (P : Platform) (s : Server) (h : nat) (html : string)
         (writes : Res -> WriteOutcome),
    phase_of (handlers s) h = Some (AwaitUpdate (Ok html)) ->
    let s' := step P s (EvResume h writes) in
    sseClients s' = sseClients s
    /\ cachedHtml s' = cachedHtml s
    /\ exists effs,
        trace s' = (trace s ++ ConsoleLog "Re-render complete" :: effs)%list
        /\ ((forall c, In c (sseClients s) -> raises (writes c) = false) ->
            effs = map (fun c => ClientWrite c reloadChunk (writes c))
                       (sseClients s)
            /\ writtenTo effs = sseClients s)
        /\ (forall before c after e,
               sseClients s = (before ++ c :: after)%list ->
               (forall x, In x before -> raises (writes x) = false) ->
               writes c = Raised e ->
               effs = (map (fun x => ClientWrite x reloadChunk (writes x))
                           (before ++ [c])
                       ++ [ConsoleError "Error re-rendering after file change:"
                                        e])%list
               /\ writtenTo effs = (before ++ [c])%list).
Proof.
  intros P s h html writes Hph s'. subst s'.
  rewrite (onResume_ok P s h html writes Hph). simpl.
  split; [reflexivity|]. split; [reflexivity|].
  eexists. split; [reflexivity|]. split.
  - intros Hall. rewrite (notifyLoop_all writes (sseClients s) Hall). simpl.
    rewrite app_nil_r. split; [reflexivity | apply writtenTo_writes].
  - intros before c after e Hcl Hbefore Hc.
    rewrite Hcl, (notifyLoop_raise writes before c after e Hbefore Hc). simpl.
    split; [reflexivity|].
    rewrite writtenTo_app, writtenTo_writes. simpl. now rewrite app_nil_r.
Qed.

Lemma notify_writes_until_first_throw_witness :
  exists s0,
    snd (createServer samplePlatform "/docs/readme.md" watchOn docsFS Listening)
    = Ok s0
    /\ sseClients (step samplePlatform (threeViewersNotified s0)
                        (EvResume 0 secondLost))
       = sseClients (threeViewersNotified s0)
    /\ cachedHtml (step samplePlatform (threeViewersNotified s0)
                        (EvResume 0 secondLost))
       = cachedHtml (threeViewersNotified s0).
Proof.
  destruct (snd (createServer samplePlatform "/docs/readme.md" watchOn docsFS
                              Listening)) as [s0|e] eqn:H0;
    [|vm_compute in H0; discriminate H0].
  exists s0. split; [reflexivity|].
  destruct (phase_of (handlers (threeViewersNotified s0)) 0)
    as [[| |[html|]]|] eqn:Hph;
    try (vm_compute in H0; injection H0 as <-; vm_compute in Hph;
         discriminate Hph).
  destruct (notify_writes_until_first_throw samplePlatform
              (threeViewersNotified s0) 0 html secondLost Hph)
    as (Hcl & Hc & _).
  split; assumption.
Defined.

(** * Further properties of the code *)

(** ** Invariants of the running server *)

Section Invariants.
Variable P : Platform.

Lemma has_In l x : SetOps.has l x = true <-> In x l.
Proof.
  unfold SetOps.has. rewrite existsb_exists. split.
  - intros (y & Hy & E). apply Nat.eqb_eq in E. now subst.
  - intros H. exists x. split; [assumption | apply Nat.eqb_refl].
Qed.

Lemma In_add l x c : In c (SetOps.add l x) <-> In c l \/ c = x.
Proof.
  unfold SetOps.add. destruct (SetOps.has l x) eqn:E.
  - apply has_In in E. split; [tauto | intros [H| ->]; assumption].
  - rewrite in_app_iff. simpl. intuition congruence.
Qed.

Lemma In_delete l x c : In c (SetOps.delete l x) <-> In c l /\ c <> x.
Proof.
  unfold SetOps.delete. rewrite filter_In, negb_true_iff, Nat.eqb_neq.
  reflexivity.
Qed.

Lemma NoDup_add l x : NoDup l -> NoDup (SetOps.add l x).
Proof.
  intros H. unfold SetOps.add. destruct (SetOps.has l x) eqn:E; [assumption|].
  apply NoDup_app; [assumption | repeat constructor; auto |].
  intros a Ha [<-|[]].
  apply has_In in Ha. congruence.
Qed.

Lemma NoDup_delete l x : NoDup l -> NoDup (SetOps.delete l x).
Proof. apply NoDup_filter. Qed.

(** No viewer is in the set twice. *)
Lemma step_NoDup s ev : NoDup (sseClients s) -> NoDup (sseClients (step P s ev)).
Proof.
  intros H. destruct ev; unfold_step; repeat break_match; simpl;
    repeat match goal with
           | E : (_, _) = (_, _) |- _ => injection E as <- <-
           end; simpl;
    solve [ assumption | now apply NoDup_add | now apply NoDup_delete
          | constructor ].
Qed.

Lemma Reachable_NoDup s : Reachable P s -> NoDup (sseClients s).
Proof.
  apply (Reachable_ind_step P (fun s => NoDup (sseClients s))).
  - intros filePath options fs listen s0 H0.
    destruct (createServer_Ok _ _ _ _ _ _ H0)
      as (content & css & _ & _ & _ & _ & Hcl & _).
    rewrite Hcl. constructor.
  - apply step_NoDup.
Qed.

Lemma Forall_set_phase (Q : nat * Phase -> Prop) hs h ph :
  (forall h' ph', Q (h', ph') -> Q (h', ph)) ->
  Forall Q hs -> Forall Q (set_phase hs h ph).
Proof.
  intros HQ. induction 1 as [|[h' ph'] hs Hq Hhs IH]; simpl; [constructor|].
  destruct (Nat.eqb h' h); constructor; eauto.
Qed.

Lemma Forall_drop_handler (Q : nat * Phase -> Prop) hs h :
  Forall Q hs -> Forall Q (drop_handler hs h).
Proof.
  intros H. apply Forall_forall. intros x Hx.
  apply filter_In in Hx. rewrite Forall_forall in H. now apply H.
Qed.

Lemma step_Fresh s ev : Fresh s -> Fresh (step P s ev).
Proof.
  unfold Fresh. intros H.
  destruct ev; unfold_step; repeat break_match; simpl;
    repeat match goal with
           | E : (_, _) = (_, _) |- _ => injection E as <- <-
           end; simpl;
    try assumption;
    try (apply Forall_set_phase; [intros ? ? Hlt; exact Hlt | assumption]);
    try (apply Forall_drop_handler; assumption).
  apply Forall_app. split.
  - eapply Forall_impl; [|exact H]. simpl. intros; lia.
  - repeat constructor.
Qed.

Lemma Reachable_Fresh s : Reachable P s -> Fresh s.
Proof.
  apply (Reachable_ind_step P Fresh).
  - intros filePath options fs listen s0 H0.
    destruct (createServer_Ok _ _ _ _ _ _ H0)
      as (content & css & _ & _ & _ & _ & _ & Hh & _).
    unfold Fresh. rewrite Hh. constructor.
  - apply step_Fresh.
Qed.

Lemma phase_of_fresh hs n ph :
  Forall (fun e => fst e < n) hs ->
  phase_of (hs ++ [(n, ph)])%list n = Some ph.
Proof.
  induction 1 as [|[h' ph'] hs Hlt Hhs IH]; simpl.
  - now rewrite Nat.eqb_refl.
  - simpl in Hlt. destruct (Nat.eqb_spec h' n); [lia | exact IH].
Qed.

Lemma phase_of_set_phase_other hs h h' ph :
  h <> h' -> phase_of (set_phase hs h ph) h' = phase_of hs h'.
Proof.
  intros Hne. induction hs as [|[k phk] hs IH]; simpl; [reflexivity|].
  destruct (Nat.eqb_spec k h) as [->|Hk]; simpl.
  - destruct (Nat.eqb_spec h h'); [congruence | reflexivity].
  - destruct (Nat.eqb k h'); [reflexivity | exact IH].
Qed.

Lemma drop_handler_set_phase_fresh hs n ph ph' :
  Forall (fun e => fst e < n) hs ->
  drop_handler (set_phase (hs ++ [(n, ph)]) n ph') n = hs.
Proof.
  unfold drop_handler.
  induction 1 as [|[h' phh] hs Hlt Hhs IH]; simpl.
  - rewrite Nat.eqb_refl. simpl. now rewrite Nat.eqb_refl.
  - simpl in Hlt. destruct (Nat.eqb_spec h' n); [lia|]. simpl.
    destruct (Nat.eqb_spec h' n); [lia|]. simpl. now rewrite IH.
Qed.

Lemma set_phase_set_phase hs h ph ph' :
  set_phase (set_phase hs h ph) h ph' = set_phase hs h ph'.
Proof.
  induction hs as [|[k phk] hs IH]; simpl; [reflexivity|].
  destruct (Nat.eqb k h) eqn:E; simpl; rewrite E; [reflexivity|].
  now rewrite IH.
Qed.

(** What handling a request leaves as it is. *)
Lemma request_state_kept s res url fs :
  handlers (step P s (EvRequest res url fs)) = handlers s
  /\ cachedHtml (step P s (EvRequest res url fs)) = cachedHtml s
  /\ githubMarkdownCss (step P s (EvRequest res url fs)) = githubMarkdownCss s.
Proof.
  unfold step.
  destruct (requestHandler P s fs res url) as [s1 r] eqn:Hrh. simpl.
  revert Hrh. unfold requestHandler.
  repeat break_match; intros [= <- <-]; repeat split.
Qed.

End Invariants.

(** ** Viewers: subscribing and leaving *)

(** X1. With watch mode on, a request for [/events] is answered 200 with
    an open event stream and puts the response in the set of viewers,
    keeping those already there; the ['close'] event of that request takes
    it out again and leaves every other viewer in place. *)
Theorem subscribe_then_close :
  forall (P : Platform) (s : Server) (fs : FS) (res : Res),
    watch (config s) = true ->
    listening s = true ->
    let s1 := step P s (EvRequest res "/events" fs) in
    let s2 := step P s1 (EvConnClose res) in
    snd (requestHandler P s fs res "/events")
    = {| status := 200;
         body := EventStream (": connected" ++ JsString.nl ++ JsString.nl) |}
    /\ (forall c, In c (sseClients s1) <-> In c (sseClients s) \/ c = res)
    /\ (forall c, In c (sseClients s2) <-> In c (sseClients s) /\ c <> res).
Proof.
  intros P s fs res Hw Hl s1 s2.
  assert (H1 : sseClients s1 = SetOps.add (sseClients s) res
               /\ closeListeners s1 = SetOps.add (closeListeners s) res).
  { subst s1. unfold step, requestHandler. rewrite Hw. simpl. now split. }
  destruct H1 as [Hc1 Hl1].
  split; [unfold requestHandler; rewrite Hw; reflexivity|].
  split.
  - intros c. rewrite Hc1. apply In_add.
  - intros c. subst s2. unfold step.
    assert (Hhas : SetOps.has (closeListeners s1) res = true).
    { rewrite Hl1. apply has_In, In_add. now right. }
    rewrite Hhas. simpl. rewrite In_delete, Hc1, In_add. intuition congruence.
Qed.

Lemma subscribe_then_close_witness :
  exists s0,
    snd (createServer samplePlatform "/docs/readme.md" watchOn docsFS Listening)
    = Ok s0
    /\ (In 4 (sseClients (step samplePlatform s0 (EvRequest 4 "/events" docsFS)))
        <-> In 4 (sseClients s0) \/ 4 = 4).
Proof.
  destruct (snd (createServer samplePlatform "/docs/readme.md" watchOn docsFS
                              Listening)) as [s0|e] eqn:H0;
    [|vm_compute in H0; discriminate H0].
  exists s0. split; [reflexivity|].
  assert (Hw : watch (config s0) = true /\ listening s0 = true).
  { vm_compute in H0. injection H0 as <-. now split. }
  destruct Hw as [Hw Hl].
  exact (proj1 (proj2 (subscribe_then_close samplePlatform s0 docsFS 4 Hw Hl)) 4).
Defined.

(** ** Notification *)

(** X2. In a running server, when a handler resumes after a successful
    render and no write throws, every viewer in the set is written the
    reload chunk exactly once, and nobody else is written to. *)
Theorem notify_exactly_once :
  forall (P : Platform) (s : Server) (h : nat) (html : string)
         (writes : Res -> WriteOutcome),
    Reachable P s ->
    phase_of (handlers s) h = Some (AwaitUpdate (Ok html)) ->
    (forall c, In c (sseClients s) -> raises (writes c) = false) ->
    exists effs,
      trace (step P s (EvResume h writes)) = (trace s ++ effs)%list
      /\ forall c,
          count_occ Nat.eq_dec (writtenTo effs) c
          = if SetOps.has (sseClients s) c then 1 else 0.
Proof.
  intros P s h html writes Hs Hph Hall.
  rewrite (onResume_ok P s h html writes Hph). simpl.
  rewrite (notifyLoop_all writes (sseClients s) Hall). simpl.
  eexists. split; [reflexivity|].
  intros c. simpl. rewrite app_nil_r, writtenTo_writes.
  destruct (SetOps.has (sseClients s) c) eqn:E.
  - apply NoDup_count_occ'; [now apply (Reachable_NoDup P) | now apply has_In].
  - apply count_occ_not_In. intros Hin. apply has_In in Hin. congruence.
Qed.

Lemma notify_exactly_once_witness :
  exists s0 effs,
    snd (createServer samplePlatform "/docs/readme.md" watchOn docsFS Listening)
    = Ok s0
    /\ trace (step samplePlatform (threeViewersNotified s0)
                   (EvResume 0 secondLost))
       = (trace (threeViewersNotified s0) ++ effs)%list
    /\ count_occ Nat.eq_dec (writtenTo effs) 3 = 1.
Proof.
  destruct (snd (createServer samplePlatform "/docs/readme.md" watchOn docsFS
                              Listening)) as [s0|e] eqn:H0;
    [|vm_compute in H0; discriminate H0].
  destruct (phase_of (handlers (threeViewersNotified s0)) 0)
    as [[| |[html|]]|] eqn:Hph;
    try (vm_compute in H0; injection H0 as <-; vm_compute in Hph;
         discriminate Hph).
  assert (Hr : Reachable samplePlatform (threeViewersNotified s0)).
  { exists "/docs/readme.md", watchOn, docsFS, Listening, s0. eexists.
    split; [exact H0 | reflexivity]. }
  assert (Hall : forall c, In c (sseClients (threeViewersNotified s0)) ->
                           raises (secondLost c) = false).
  { intros c _. unfold secondLost. now destruct (Nat.eqb c 2). }
  destruct (notify_exactly_once samplePlatform (threeViewersNotified s0) 0
              html secondLost Hr Hph Hall) as (effs & Ht & Hcount).
  exists s0, effs. split; [reflexivity|]. split; [exact Ht|].
  rewrite (Hcount 3).
  vm_compute in H0. injection H0 as <-. reflexivity.
Defined.

(** ** The steps of a handler *)

Section HandlerSteps.
Variable P : Platform.

Lemma step_change s : watching s = true -> step P s EvFileChange = onChange s.
Proof. intros H. unfold step. now rewrite H. Qed.

Lemma step_render_ok s h fs content :
  phase_of (handlers s) h = Some AwaitRender ->
  RenderMarkdown.renderMarkdown P fs (absoluteFilePath (config s)) = Ok content ->
  step P s (EvRenderSettled h fs)
  = with_handlers s
      (set_phase (handlers s) h
         (AwaitGenerate content
            (HtmlTemplate.cssCacheHit (githubMarkdownCss s))))
      (nextHandler s).
Proof. intros Hph Hr. unfold step, onRenderSettled. now rewrite Hph, Hr. Qed.

Lemma step_generate s h fs content cssHit :
  phase_of (handlers s) h = Some (AwaitGenerate content cssHit) ->
  step P s (EvGenerateSettled h fs)
  = let html := HtmlTemplate.generateHtml content (generateOptions (config s))
                  (fst (loadedCss P s cssHit fs)) in
    with_handlers
      (with_cachedHtml (with_css s (snd (loadedCss P s cssHit fs))) (Some html))
      (set_phase (handlers s) h (AwaitUpdate (Ok html)))
      (nextHandler s).
Proof.
  intros Hph. unfold step, onGenerateSettled, loadedCss. rewrite Hph.
  destruct cssHit as [css|]; [reflexivity|].
  destruct (HtmlTemplate.cssCacheMiss P fs (githubMarkdownCss s)). reflexivity.
Qed.

End HandlerSteps.

(** C4. In a running server whose watcher runs, a change event whose
    render throws changes nothing that viewers see.  The change handler
    starts the render without touching the cached document;
    [updateRenderedHtml] logs and rethrows without assigning [cachedHtml];
    the handler, when it resumes, only logs the error.  After each of the
    three steps the cached document is the one from before the change
    event; at the end the set of viewers, the suspended handlers and the
    listening flag are as before, the four log lines are all that was
    done, so nothing was written to any viewer, and a request for [/] is
    answered 200 with the document from before the change.  The last two
    parts say the same of the two later steps when other events come in
    between. *)
Theorem failed_rerender_keeps_snapshot :
  forall (P : Platform) (s : Server) (fs : FS) (e : Error)
         (writes : Res -> WriteOutcome),
    Reachable P s ->
    watching s = true ->
    RenderMarkdown.renderMarkdown P fs (absoluteFilePath (config s)) = Throw e ->
    let h := nextHandler s in
    let s0 := step P s EvFileChange in
    let s1 := step P s0 (EvRenderSettled h fs) in
    let s2 := step P s1 (EvResume h writes) in
    (cachedHtml s0 = cachedHtml s
     /\ cachedHtml s1 = cachedHtml s
     /\ cachedHtml s2 = cachedHtml s)
    /\ (sseClients s0 = sseClients s
        /\ sseClients s1 = sseClients s
        /\ sseClients s2 = sseClients s)
    /\ listening s2 = listening s
    /\ handlers s2 = handlers s
    /\ trace s2
       = (trace s
          ++ [ConsoleLog "File changed, re-rendering...";
              CallRenderMarkdown (absoluteFilePath (config s));
              ConsoleError "Error rendering markdown:" e;
              ConsoleError "Error re-rendering after file change:" e])%list
    /\ writtenTo (trace s2) = writtenTo (trace s)
    /\ (forall fs' res,
           requestHandler P s2 fs' res "/"
           = (s2, {| status := 200; body := endWith (cachedHtml s) |}))
    /\ (forall s' : Server,
           phase_of (handlers s') h = Some AwaitRender ->
           config s' = config s ->
           let s1' := step P s' (EvRenderSettled h fs) in
           cachedHtml s1' = cachedHtml s'
           /\ sseClients s1' = sseClients s'
           /\ trace s1'
              = (trace s' ++ [ConsoleError "Error rendering markdown:" e])%list
           /\ phase_of (handlers s1') h = Some (AwaitUpdate (Throw e)))
    /\ (forall (s' : Server) (writes' : Res -> WriteOutcome),
           phase_of (handlers s') h = Some (AwaitUpdate (Throw e)) ->
           let s2' := step P s' (EvResume h writes') in
           cachedHtml s2' = cachedHtml s'
           /\ sseClients s2' = sseClients s'
           /\ listening s2' = listening s'
           /\ trace s2'
              = (trace s'
                 ++ [ConsoleError "Error re-rendering after file change:" e])%list
           /\ writtenTo (trace s2') = writtenTo (trace s')
           /\ forall fs' res,
               snd (requestHandler P s2' fs' res "/")
               = {| status := 200; body := endWith (cachedHtml s') |}).
Proof.
  intros P s fs e writes Hs Hw Hr h s0 s1 s2.
  pose proof (Reachable_Fresh P s Hs) as Hfresh. unfold Fresh in Hfresh.
  fold h in Hfresh.
  assert (E0 : s0 = onChange s) by (subst s0; now apply step_change).
  assert (Hph0 : phase_of (handlers s0) h = Some AwaitRender).
  { rewrite E0. unfold onChange. simpl. apply phase_of_fresh, Hfresh. }
  assert (E1 : s1 = emit (with_handlers s0
                            (set_phase (handlers s0) h (AwaitUpdate (Throw e)))
                            (nextHandler s0))
                         [ConsoleError "Error rendering markdown:" e]).
  { subst s1. unfold step, onRenderSettled. rewrite Hph0.
    replace (config s0) with (config s) by (rewrite E0; reflexivity).
    now rewrite Hr. }
  assert (Hph1 : phase_of (handlers s1) h = Some (AwaitUpdate (Throw e))).
  { rewrite E1. simpl. eapply phase_of_set_phase. exact Hph0. }
  assert (E2 : s2 = emit (with_handlers s1 (drop_handler (handlers s1) h)
                                        (nextHandler s1))
                         [ConsoleError "Error re-rendering after file change:" e]).
  { subst s2. unfold step, onResume. now rewrite Hph1. }
  assert (Hh2 : handlers s2 = handlers s).
  { rewrite E2, E1, E0. unfold onChange. simpl.
    apply drop_handler_set_phase_fresh, Hfresh. }
  assert (Ht2 : trace s2
       = (trace s
          ++ [ConsoleLog "File changed, re-rendering...";
              CallRenderMarkdown (absoluteFilePath (config s));
              ConsoleError "Error rendering markdown:" e;
              ConsoleError "Error re-rendering after file change:" e])%list).
  { rewrite E2, E1, E0. unfold onChange. simpl.
    now rewrite <- !app_assoc. }
  assert (Hc2 : cachedHtml s2 = cachedHtml s)
    by (rewrite E2, E1, E0; reflexivity).
  split; [split; [rewrite E0; reflexivity
                 | split; [rewrite E1, E0; reflexivity | exact Hc2]]|].
  split; [split; [rewrite E0; reflexivity
                 | split; [rewrite E1, E0; reflexivity
                          | rewrite E2, E1, E0; reflexivity]]|].
  split; [rewrite E2, E1, E0; reflexivity|].
  split; [exact Hh2|]. split; [exact Ht2|].
  split; [rewrite Ht2, writtenTo_app; simpl; now rewrite app_nil_r|].
  split; [intros fs' res; rewrite requestHandler_root, Hc2; reflexivity|].
  split.
  - intros s' Hph Hcfg s1'. subst s1'.
    unfold step, onRenderSettled. rewrite Hph, Hcfg, Hr. simpl.
    repeat split. eapply phase_of_set_phase; eassumption.
  - intros s' writes' Hph' s2'. subst s2'.
    unfold step, onResume. rewrite Hph'. simpl.
    repeat split.
    rewrite writtenTo_app. simpl. now rewrite app_nil_r.
Qed.

(** The scenario of the specification: a first change renders a new
    document and the subscribed viewer gets one reload; a second change
    meets a file the renderer rejects: the document stays the one of the
    first change and nothing more is written to the viewer. *)
Lemma failed_rerender_keeps_snapshot_witness :
  exists s0 s,
    snd (createServer samplePlatform "/docs/readme.md" watchOn docsFS Listening)
    = Ok s0
    /\ s = run samplePlatform s0
             [EvRequest 1 "/events" docsFS;
              EvFileChange;
              EvRenderSettled 0 (sampleFS 6 "hello2");
              EvGenerateSettled 0 (sampleFS 6 "hello2");
              EvResume 0 (fun _ => Delivered)]
    /\ cachedHtml s <> cachedHtml s0
    /\ writtenTo (trace s) = [1]
    /\ cachedHtml (run samplePlatform s
                       [EvFileChange;
                        EvRenderSettled (nextHandler s) (sampleFS 0 "");
                        EvResume (nextHandler s) (fun _ => Delivered)])
       = cachedHtml s
    /\ writtenTo (trace (run samplePlatform s
                       [EvFileChange;
                        EvRenderSettled (nextHandler s) (sampleFS 0 "");
                        EvResume (nextHandler s) (fun _ => Delivered)]))
       = [1].
Proof.
  destruct (snd (createServer samplePlatform "/docs/readme.md" watchOn docsFS
                              Listening)) as [s0|e] eqn:H0;
    [|vm_compute in H0; discriminate H0].
  set (evs := [EvRequest 1 "/events" docsFS;
               EvFileChange;
               EvRenderSettled 0 (sampleFS 6 "hello2");
               EvGenerateSettled 0 (sampleFS 6 "hello2");
               EvResume 0 (fun _ => Delivered)]).
  exists s0, (run samplePlatform s0 evs).
  split; [reflexivity|]. split; [reflexivity|].
  assert (Hreach : Reachable samplePlatform (run samplePlatform s0 evs)).
  { exists "/docs/readme.md", watchOn, docsFS, Listening, s0, evs.
    split; [exact H0 | reflexivity]. }
  vm_compute in H0. injection H0 as <-.
  match goal with
  | Hreach : Reachable _ (run _ ?x _) |- _ => set (s0 := x) in *
  end.
  set (s := run samplePlatform s0 evs) in *.
  assert (Hw : watching s = true) by (vm_compute; reflexivity).
  assert (Hr : RenderMarkdown.renderMarkdown samplePlatform (sampleFS 0 "")
                 (absoluteFilePath (config s))
               = Throw (SysError "cannot process"))
    by (vm_compute; reflexivity).
  destruct (failed_rerender_keeps_snapshot samplePlatform s (sampleFS 0 "")
              (SysError "cannot process") (fun _ => Delivered) Hreach Hw Hr)
    as ((_ & _ & Hc2) & _ & _ & _ & _ & Hw2 & _).
  change (run samplePlatform s [?a; ?b; ?c])
    with (step samplePlatform (step samplePlatform (step samplePlatform s a) b) c).
  split; [vm_compute; discriminate|].
  split; [vm_compute; reflexivity|].
  split; [exact Hc2|].
  rewrite Hw2. vm_compute. reflexivity.
Defined.

(** ** A whole re-render *)

(** X3. In a running server whose watcher runs, a change event followed by
    a successful render and the generation of the page replaces the cached
    document by the page of the new content before anything is written to
    a viewer; when the handler then resumes and no write throws, each
    viewer is written to, the cached document stays the new page, and the
    handler is gone. *)
Theorem rerender_replaces_snapshot_then_notifies :
  forall (P : Platform) (s : Server) (fs fs' : FS) (content : string)
         (writes : Res -> WriteOutcome),
    Reachable P s ->
    watching s = true ->
    RenderMarkdown.renderMarkdown P fs (absoluteFilePath (config s)) = Ok content ->
    (forall c, In c (sseClients s) -> raises (writes c) = false) ->
    let h := nextHandler s in
    let s1 := run P s [EvFileChange; EvRenderSettled h fs;
                       EvGenerateSettled h fs'] in
    let s2 := step P s1 (EvResume h writes) in
    exists githubCss,
      cachedHtml s1 = Some (HtmlTemplate.generateHtml content
                              (generateOptions (config s)) githubCss)
      /\ writtenTo (trace s1) = writtenTo (trace s)
      /\ cachedHtml s2 = cachedHtml s1
      /\ writtenTo (trace s2) = (writtenTo (trace s) ++ sseClients s)%list
      /\ handlers s2 = handlers s.
Proof.
  intros P s fs fs' content writes Hs Hw Hr Hall h s1 s2.
  pose proof (Reachable_Fresh P s Hs) as Hfresh. unfold Fresh in Hfresh.
  fold h in Hfresh.
  set (hit := HtmlTemplate.cssCacheHit (githubMarkdownCss s)).
  set (sa := onChange s).
  set (sb := with_handlers sa
               (set_phase (handlers sa) h (AwaitGenerate content hit))
               (nextHandler sa)).
  set (load := loadedCss P sb hit fs').
  set (html := HtmlTemplate.generateHtml content (generateOptions (config s))
                                         (fst load)).
  assert (Hpha : phase_of (handlers sa) h = Some AwaitRender).
  { subst sa. unfold onChange. simpl. apply phase_of_fresh, Hfresh. }
  assert (Hphb : phase_of (handlers sb) h = Some (AwaitGenerate content hit)).
  { subst sb. simpl. eapply phase_of_set_phase. exact Hpha. }
  assert (Hs1 : s1 = with_handlers
                       (with_cachedHtml (with_css sb (snd load)) (Some html))
                       (set_phase (handlers sb) h (AwaitUpdate (Ok html)))
                       (nextHandler sb)).
  { subst s1.
    change (run P s [?a; ?b; ?c])
      with (step P (step P (step P s a) b) c).
    rewrite (step_change P s Hw). fold sa.
    rewrite (step_render_ok P sa h fs content Hpha Hr).
    change (githubMarkdownCss sa) with (githubMarkdownCss s). fold hit. fold sb.
    rewrite (step_generate P sb h fs' content hit Hphb). reflexivity. }
  assert (H1 : cachedHtml s1 = Some html
               /\ sseClients s1 = sseClients s
               /\ trace s1 = (trace s
                     ++ [ConsoleLog "File changed, re-rendering...";
                         CallRenderMarkdown (absoluteFilePath (config s))])%list
               /\ handlers s1 = set_phase (handlers s ++ [(h, AwaitRender)])%list
                                          h (AwaitUpdate (Ok html))
               /\ nextHandler s1 = S h).
  { rewrite Hs1. subst sb sa. simpl. rewrite set_phase_set_phase.
    repeat split. }
  destruct H1 as (Hc1 & Hcl1 & Ht1 & Hh1 & Hn1).
  exists (fst load). split; [exact Hc1|].
  split.
  { rewrite Ht1, writtenTo_app. simpl. now rewrite app_nil_r. }
  assert (Hph1 : phase_of (handlers s1) h = Some (AwaitUpdate (Ok html))).
  { rewrite Hh1. eapply phase_of_set_phase. apply phase_of_fresh, Hfresh. }
  subst s2. rewrite (onResume_ok P s1 h html writes Hph1).
  rewrite Hcl1, (notifyLoop_all writes (sseClients s) Hall).
  cbn [emit with_handlers cachedHtml trace handlers fst snd].
  split; [reflexivity|]. split.
  - rewrite Ht1, !writtenTo_app. simpl. rewrite !app_nil_r.
    now rewrite writtenTo_writes.
  - rewrite Hh1. apply drop_handler_set_phase_fresh, Hfresh.
Qed.

Lemma rerender_replaces_snapshot_then_notifies_witness :
  exists s0 githubCss,
    snd (createServer samplePlatform "/docs/readme.md" watchOn docsFS Listening)
    = Ok s0
    /\ cachedHtml (run samplePlatform s0
                       [EvFileChange; EvRenderSettled (nextHandler s0)
                                        (sampleFS 6 "hello2");
                        EvGenerateSettled (nextHandler s0) docsFS])
       = Some (HtmlTemplate.generateHtml "<p>hello2</p>"
                 (generateOptions (config s0)) githubCss).
Proof.
  destruct (snd (createServer samplePlatform "/docs/readme.md" watchOn docsFS
                              Listening)) as [s0|e] eqn:H0;
    [|vm_compute in H0; discriminate H0].
  assert (Hr : Reachable samplePlatform s0).
  { exists "/docs/readme.md", watchOn, docsFS, Listening, s0, []. now split. }
  assert (Hw : watching s0 = true
               /\ RenderMarkdown.renderMarkdown samplePlatform
                    (sampleFS 6 "hello2") (absoluteFilePath (config s0))
                  = Ok "<p>hello2</p>"
               /\ sseClients s0 = []).
  { vm_compute in H0. injection H0 as <-. repeat split. }
  destruct Hw as (Hw & Hrender & Hcl).
  assert (Hall : forall c, In c (sseClients s0) ->
                           raises ((fun _ => Delivered) c) = false)
    by (intros; reflexivity).
  destruct (rerender_replaces_snapshot_then_notifies samplePlatform s0
              (sampleFS 6 "hello2") docsFS "<p>hello2</p>"
              (fun _ => Delivered) Hr Hw Hrender Hall)
    as (css & Hc & _).
  exists s0, css. split; [reflexivity | exact Hc].
Defined.

(** ** Overlapping renders *)

(** X4. When two handlers wait for [generateHtml] at the same time, the
    cached document after both have settled is the page of the one that
    settled last, whichever of the two was started first. *)
Theorem last_settled_render_wins :
  forall (P : Platform) (s : Server) (h1 h2 : nat) (c1 c2 : string)
         (hit1 hit2 : option string) (fs1 fs2 : FS),
    h1 <> h2 ->
    phase_of (handlers s) h1 = Some (AwaitGenerate c1 hit1) ->
    phase_of (handlers s) h2 = Some (AwaitGenerate c2 hit2) ->
    exists githubCss,
      cachedHtml (run P s [EvGenerateSettled h2 fs2; EvGenerateSettled h1 fs1])
      = Some (HtmlTemplate.generateHtml c1 (generateOptions (config s))
                                        githubCss).
Proof.
  intros P s h1 h2 c1 c2 hit1 hit2 fs1 fs2 Hne H1 H2.
  change (run P s [?a; ?b]) with (step P (step P s a) b).
  rewrite (step_generate P s h2 fs2 c2 hit2 H2). cbv zeta.
  match goal with
  | |- context [step P ?s' _] =>
      assert (H1' : phase_of (handlers s') h1 = Some (AwaitGenerate c1 hit1))
  end.
  { simpl. rewrite phase_of_set_phase_other by congruence. exact H1. }
  rewrite (step_generate P _ h1 fs1 c1 hit1 H1'). cbv zeta. simpl.
  eexists. reflexivity.
Qed.

Lemma last_settled_render_wins_witness :
  exists s0 githubCss,
    snd (createServer samplePlatform "/docs/readme.md" watchOn docsFS Listening)
    = Ok s0
    /\ cachedHtml (run samplePlatform (twoRendersPending s0)
                       [EvGenerateSettled 1 docsFS; EvGenerateSettled 0 docsFS])
       = Some (HtmlTemplate.generateHtml "<p>old</p>"
                 (generateOptions (config (twoRendersPending s0))) githubCss).
Proof.
  destruct (snd (createServer samplePlatform "/docs/readme.md" watchOn docsFS
                              Listening)) as [s0|e] eqn:H0;
    [|vm_compute in H0; discriminate H0].
  assert (H : phase_of (handlers (twoRendersPending s0)) 0
              = Some (AwaitGenerate "<p>old</p>" None)
              /\ phase_of (handlers (twoRendersPending s0)) 1
                 = Some (AwaitGenerate "<p>new</p>" None)).
  { vm_compute in H0. injection H0 as <-. split; reflexivity. }
  destruct H as [Ha Hb].
  destruct (last_settled_render_wins samplePlatform (twoRendersPending s0)
              0 1 "<p>old</p>" "<p>new</p>" None None docsFS docsFS
              (Nat.neq_0_succ 0) Ha Hb) as (css & Hc).
  exists s0, css. split; [reflexivity | exact Hc].
Defined.

(** ** Requests *)

(** X5. Handling a request, whatever its URL, never starts a render and
    never writes a reload chunk: the only thing it writes to a viewer is
    the comment that opens the event stream of the request that
    subscribes.  It leaves the cached document, the suspended handlers and
    the cached style sheet as they are and removes no viewer. *)
Theorem request_changes_nothing_rendered :
  forall (P : Platform) (s : Server) (res : Res) (url : string) (fs : FS),
    let s' := step P s (EvRequest res url fs) in
    cachedHtml s' = cachedHtml s
    /\ handlers s' = handlers s
    /\ githubMarkdownCss s' = githubMarkdownCss s
    /\ rendersStarted (trace s') = rendersStarted (trace s)
    /\ chunksWritten (trace s')
       = (chunksWritten (trace s)
          ++ (if (watch (config s) && String.eqb url "/events")%bool
              then [(res, (": connected" ++ JsString.nl ++ JsString.nl)%string)]
              else []))%list
    /\ forall c, In c (sseClients s) -> In c (sseClients s').
Proof.
  intros P s res url fs s'. subst s'. unfold step.
  destruct (requestHandler P s fs res url) as [s1 r] eqn:Hrh.
  assert (H : cachedHtml s1 = cachedHtml s /\ handlers s1 = handlers s
              /\ githubMarkdownCss s1 = githubMarkdownCss s
              /\ trace s1 = trace s
              /\ (forall c, In c (sseClients s) -> In c (sseClients s1))
              /\ chunksWritten [Respond res r]
                 = if (watch (config s) && String.eqb url "/events")%bool
                   then [(res, (": connected" ++ JsString.nl ++ JsString.nl)%string)]
                   else []).
  { revert Hrh. unfold requestHandler.
    destruct (String.eqb_spec url "/") as [->|Hroot].
    - intros [= <- <-]. rewrite andb_false_r. repeat split; auto.
      unfold endWith. destruct (cachedHtml s); reflexivity.
    - destruct (watch (config s) && String.eqb url "/events")%bool.
      + intros [= <- <-]. simpl. repeat split; auto.
        intros c Hc. apply In_add. now left.
      + destruct (JsString.startsWith url "/assets/").
        * intros [= <- <-]. repeat split; auto.
          unfold serveAsset, forbidden, notFound.
          destruct (decodeURIComponent P _); [|reflexivity].
          destruct (negb _); [reflexivity|].
          destruct (access_R_OK fs _); reflexivity.
        * intros [= <- <-]. repeat split; auto. }
  destruct H as (Hc & Hh & Hcss & Ht & Hcl & Hch).
  simpl. rewrite Hc, Hh, Hcss, Ht, rendersStarted_app.
  unfold chunksWritten at 1. rewrite flat_map_app.
  fold (chunksWritten (trace s)). fold (chunksWritten [Respond res r]).
  rewrite Hch. simpl. rewrite Nat.add_0_r. repeat split; auto.
Qed.

(** X6. What the client receives for an asset request is 404, 403, the
    content of the file with status 200 or, when the read stream fails
    after the headers are sent (as it does for a directory), status 200
    with the text of the stream's error listener at the end of the body.
    Status 200 is sent only when the decoded reference, resolved against
    [baseDir], starts with the characters of [baseDir] and [access]
    accepts it; a URL that [decodeURIComponent] rejects and a path that
    [access] rejects both give 404. *)
Theorem asset_response_cases :
  forall (P : Platform) (c : Config) (fs : FS) (url : string)
         (o : StreamOutcome),
    let r := serveAsset P c fs url in
    (received r o = (404, "404 Not Found")
     \/ received r o = (403, "403 Forbidden: Access denied")
     \/ (exists content, o = StreamEnds content /\ received r o = (200, content))
     \/ (exists piped e,
            o = StreamFails piped e
            /\ received r o = (200, piped ++ "500 Internal Server Error")))
    /\ (fst (received r o) = 200 ->
        exists relativePath,
          decodeURIComponent P (JsString.slice 8 url) = Some relativePath
          /\ JsString.startsWith
               (Path.resolve (cwd P) [baseDir c; relativePath]) (baseDir c)
             = true
          /\ access_R_OK fs (Path.resolve (cwd P) [baseDir c; relativePath])
             = Ok tt
          /\ body r
             = FileStream (Path.resolve (cwd P) [baseDir c; relativePath]))
    /\ (decodeURIComponent P (JsString.slice 8 url) = None ->
        received r o = (404, "404 Not Found"))
    /\ (forall relativePath e,
           decodeURIComponent P (JsString.slice 8 url) = Some relativePath ->
           JsString.startsWith
             (Path.resolve (cwd P) [baseDir c; relativePath]) (baseDir c) = true ->
           access_R_OK fs (Path.resolve (cwd P) [baseDir c; relativePath])
           = Throw e ->
           received r o = (404, "404 Not Found")).
Proof.
  intros P c fs url o r. subst r. unfold serveAsset. simpl String.length.
  destruct (decodeURIComponent P (JsString.slice 8 url)) as [rel|].
  - destruct (JsString.startsWith (Path.resolve (cwd P) [baseDir c; rel])
                                  (baseDir c)) eqn:Hp; simpl negb; cbv iota.
    + destruct (access_R_OK fs _) as [[]|e] eqn:Ha.
      * split.
        { destruct o as [content|piped e]; unfold received; simpl.
          - right; right; left. exists content. now split.
          - right; right; right. exists piped, e. now split. }
        split; [|split; [discriminate|]].
        -- intros _. exists rel. repeat split; assumption.
        -- intros rel' e' [= <-] _ He. congruence.
      * split; [now left|]. split; [discriminate|].
        split; [discriminate | reflexivity].
    + split; [right; now left|]. split; [discriminate|].
      split; [discriminate|]. intros rel' e' [= <-] Hp'. congruence.
  - split; [now left|]. split; [discriminate|].
    split; [reflexivity | discriminate].
Qed.

(** A request for the base directory itself: [access] accepts it, the read
    stream fails at once, and the client gets status 200 with the error
    text as body. *)
Lemma asset_response_cases_witness :
  received (serveAsset samplePlatform
              (makeConfig samplePlatform "/docs/readme.md" watchOff)
              docsFS "/assets/")
           (StreamFails "" (SysError "EISDIR"))
  = (200, "500 Internal Server Error")
  /\ received (serveAsset samplePlatform
                 (makeConfig samplePlatform "/docs/readme.md" watchOff)
                 docsFS "/assets/100%.png")
              (StreamEnds "")
     = (404, "404 Not Found").
Proof.
  destruct (asset_response_cases samplePlatform
              (makeConfig samplePlatform "/docs/readme.md" watchOff)
              docsFS "/assets/" (StreamFails "" (SysError "EISDIR")))
    as ([H|[H|[(content & Ho & _)|(piped & e & Ho & H)]]] & _);
    try (vm_compute in H; discriminate H); try discriminate Ho.
  injection Ho as <- <-.
  split; [exact H|].
  refine (proj1 (proj2 (proj2 (asset_response_cases samplePlatform
            (makeConfig samplePlatform "/docs/readme.md" watchOff)
            docsFS "/assets/100%.png" (StreamEnds "")))) _).
  reflexivity.
Defined.

(** ** Shutdown *)

Section Shutdown.
Variable P : Platform.

Lemma close_Closed s : Closed (close s).
Proof.
  unfold Closed, close, watching. simpl.
  split; [reflexivity|]. destruct (fileWatcher s); reflexivity.
Qed.

Lemma step_fileWatcher s ev :
  fileWatcher (step P s ev)
  = match ev with
    | EvClose => option_map FileWatcher.stop (fileWatcher s)
    | _ => fileWatcher s
    end.
Proof. destruct ev; unfold_step; repeat break_match; reflexivity. Qed.

Lemma step_watching_off s ev : watching s = false -> watching (step P s ev) = false.
Proof.
  unfold watching. rewrite step_fileWatcher.
  destruct ev; try (intros H; exact H).
  intros _. destruct (fileWatcher s); reflexivity.
Qed.

Lemma step_listening_off s ev :
  listening s = false -> listening (step P s ev) = false.
Proof.
  intros H. destruct ev; unfold_step; rewrite ?H; repeat break_match;
    simpl; solve [assumption | reflexivity].
Qed.

Lemma step_Closed s ev : Closed s -> Closed (step P s ev).
Proof.
  unfold Closed. intros (Hl & Hw).
  split; [now apply step_listening_off | now apply step_watching_off].
Qed.

Lemma run_Closed s evs : Closed s -> Closed (run P s evs).
Proof.
  revert s. induction evs as [|ev evs IH]; intros s H; [exact H|].
  simpl. apply IH, step_Closed, H.
Qed.

Lemma notifyLoop_no_render writes clients :
  rendersStarted (fst (notifyLoop writes clients)) = 0.
Proof.
  induction clients as [|c l IH]; simpl; [reflexivity|].
  destruct (notifyLoop writes l) as [effs r].
  destruct (writes c); simpl in *; try assumption; reflexivity.
Qed.

(** Only a change event starts a render. *)
Lemma step_rendersStarted_other s ev :
  ev <> EvFileChange ->
  rendersStarted (trace (step P s ev)) = rendersStarted (trace s).
Proof.
  intros Hev. destruct ev.
  - unfold step.
    destruct (requestHandler P s fs res url) as [s1 r] eqn:Hrh.
    simpl. rewrite rendersStarted_app. simpl. rewrite Nat.add_0_r.
    f_equal. revert Hrh. unfold requestHandler.
    repeat break_match; intros [= <- <-]; reflexivity.
  - unfold step. destruct (SetOps.has _ _); reflexivity.
  - contradiction.
  - unfold step, onRenderSettled. repeat break_match; simpl; try reflexivity.
    rewrite rendersStarted_app. simpl. apply Nat.add_0_r.
  - unfold step, onGenerateSettled. repeat break_match; reflexivity.
  - unfold step, onResume.
    destruct (phase_of (handlers s) h) as [[| |[html|e]]|]; try reflexivity.
    + pose proof (notifyLoop_no_render writes (sseClients s)) as Hn.
      destruct (notifyLoop writes (sseClients s)) as [effs loop].
      simpl in *. rewrite rendersStarted_app.
      change (ConsoleLog "Re-render complete" :: effs ++ ?t)%list
        with ([ConsoleLog "Re-render complete"] ++ effs ++ t)%list.
      rewrite !rendersStarted_app, Hn.
      destruct loop; unfold rendersStarted; simpl; lia.
    + simpl. rewrite rendersStarted_app. simpl. apply Nat.add_0_r.
  - unfold step, close, emit. simpl. rewrite !rendersStarted_app.
    assert (Hm : rendersStarted (map ClientEnd (sseClients s)) = 0).
    { induction (sseClients s); [reflexivity | assumption]. }
    rewrite Hm. destruct (watching s); unfold rendersStarted; simpl; lia.
Qed.

(** Without a running watcher no event starts a render. *)
Lemma step_rendersStarted s ev :
  watching s = false ->
  rendersStarted (trace (step P s ev)) = rendersStarted (trace s).
Proof.
  intros Hw. destruct ev; try (apply step_rendersStarted_other; discriminate).
  unfold step. now rewrite Hw.
Qed.

Lemma writtenTo_ends l : writtenTo (map ClientEnd l) = [].
Proof. induction l; [reflexivity | assumption]. Qed.

(** Only a handler that resumes writes to viewers. *)
Lemma step_writtenTo_other s ev :
  (forall h writes, ev <> EvResume h writes) ->
  writtenTo (trace (step P s ev)) = writtenTo (trace s).
Proof.
  intros Hev. destruct ev.
  - unfold step.
    destruct (requestHandler P s fs res url) as [s1 r] eqn:Hrh.
    simpl. rewrite writtenTo_app. simpl. rewrite app_nil_r.
    f_equal. revert Hrh. unfold requestHandler.
    repeat break_match; intros [= <- <-]; reflexivity.
  - unfold step. destruct (SetOps.has _ _); reflexivity.
  - unfold step. destruct (watching s); [|reflexivity].
    unfold onChange. simpl. rewrite writtenTo_app. simpl. apply app_nil_r.
  - unfold step, onRenderSettled. repeat break_match; simpl; try reflexivity.
    rewrite writtenTo_app. simpl. apply app_nil_r.
  - unfold step, onGenerateSettled. repeat break_match; reflexivity.
  - exfalso. now apply (Hev h writes).
  - unfold step, close, emit. simpl. rewrite !writtenTo_app, writtenTo_ends.
    destruct (watching s); simpl; now rewrite app_nil_r.
Qed.

End Shutdown.

(** X7. [close()] stops the watcher when it runs, ends the response of
    every viewer in subscription order, empties the set of viewers and
    leaves the cached document as it is.  From then on, whatever events
    follow, the watcher stays stopped, a change event changes nothing, and
    no render is started. *)
Theorem close_is_final :
  forall (P : Platform) (s : Server) (evs : list Event),
    let s' := step P s EvClose in
    let s'' := run P s' evs in
    trace s' = (trace s ++ (if watching s then [WatcherStop] else [])
                        ++ map ClientEnd (sseClients s))%list
    /\ sseClients s' = []
    /\ cachedHtml s' = cachedHtml s
    /\ watching s'' = false
    /\ listening s'' = false
    /\ rendersStarted (trace s'') = rendersStarted (trace s')
    /\ step P s'' EvFileChange = s''.
Proof.
  intros P s evs s' s''.
  assert (Hc' : Closed s') by apply close_Closed.
  assert (Hc'' : Closed s'') by (apply run_Closed; exact Hc').
  split; [reflexivity|]. split; [reflexivity|]. split; [reflexivity|].
  destruct Hc'' as (Hl & Hw).
  split; [exact Hw|]. split; [exact Hl|]. split.
  - subst s''. clear Hl Hw. generalize dependent s'. clear s.
    induction evs as [|ev evs IH]; intros s' Hc'; [reflexivity|].
    simpl. rewrite IH by (apply step_Closed; exact Hc').
    apply step_rendersStarted. apply Hc'.
  - unfold step. now rewrite Hw.
Qed.

(** ** More on the page template *)

Section TemplateMore.
Import HtmlTemplate.

(** The texts [escapeChar] produces cannot be confused with one another at
    the front of a string. *)
Lemma escapeChar_prefix_free a b r1 r2 :
  escapeChar a ++ r1 = escapeChar b ++ r2 -> a = b /\ r1 = r2.
Proof.
  unfold escapeChar.
  destruct (Ascii.eqb_spec a "&"); [|destruct (Ascii.eqb_spec a "<");
    [|destruct (Ascii.eqb_spec a ">"); [|destruct (Ascii.eqb_spec a "034");
      [|destruct (Ascii.eqb_spec a "'")]]]];
  (destruct (Ascii.eqb_spec b "&"); [|destruct (Ascii.eqb_spec b "<");
    [|destruct (Ascii.eqb_spec b ">"); [|destruct (Ascii.eqb_spec b "034");
      [|destruct (Ascii.eqb_spec b "'")]]]]);
  subst; simpl; intros H; inversion H; subst; try congruence; auto.
Qed.

Lemma escapeHtml_injective a b : escapeHtml a = escapeHtml b -> a = b.
Proof.
  revert b. induction a as [|x a IH]; intros [|y b]; simpl; intros H.
  - reflexivity.
  - exfalso. unfold escapeChar in H.
    repeat match type of H with
           | context [Ascii.eqb y ?c] => destruct (Ascii.eqb y c)
           end; discriminate H.
  - exfalso. unfold escapeChar in H.
    repeat match type of H with
           | context [Ascii.eqb x ?c] => destruct (Ascii.eqb x c)
           end; discriminate H.
  - apply escapeChar_prefix_free in H. destruct H as [-> H].
    f_equal. now apply IH.
Qed.

Lemma escapeHtml_length text :
  String.length text <= String.length (escapeHtml text).
Proof.
  induction text as [|c text IH]; simpl; [lia|].
  unfold escapeChar.
  repeat match goal with
         | |- context [Ascii.eqb c ?x] => destruct (Ascii.eqb c x)
         end; simpl; lia.
Qed.

Lemma entity_None_iff c :
  entity c = None
  <-> c <> "&"%char /\ c <> "<"%char /\ c <> ">"%char
      /\ c <> "034"%char /\ c <> "'"%char.
Proof.
  unfold entity.
  destruct (Ascii.eqb_spec c "&"); [split; [discriminate | tauto]|].
  destruct (Ascii.eqb_spec c "<"); [split; [discriminate | tauto]|].
  destruct (Ascii.eqb_spec c ">"); [split; [discriminate | tauto]|].
  destruct (Ascii.eqb_spec c "034"); [split; [discriminate | tauto]|].
  destruct (Ascii.eqb_spec c "'"); [split; [discriminate | tauto]|].
  tauto.
Qed.

End TemplateMore.

(** X9. [escapeHtml] loses nothing: two different texts have different
    escaped texts, so the title of the page determines the filename. *)
Theorem escapeHtml_distinguishes_texts :
  forall a b : string,
    HtmlTemplate.escapeHtml a = HtmlTemplate.escapeHtml b <-> a = b.
Proof.
  intros a b. split; [apply escapeHtml_injective | now intros ->].
Qed.

(** X10. [escapeHtml] returns its argument unchanged exactly when none of
    the five characters occurs in it; it never makes a text shorter. *)
Theorem escapeHtml_identity_on_plain_text :
  forall text : string,
    (HtmlTemplate.escapeHtml text = text
     <-> occurs "&" text = false /\ occurs "<" text = false
         /\ occurs ">" text = false /\ occurs "034" text = false
         /\ occurs "'" text = false)
    /\ String.length text <= String.length (HtmlTemplate.escapeHtml text).
Proof.
  intros text. split; [|apply escapeHtml_length].
  induction text as [|c text IH]; simpl.
  - split; [repeat split | reflexivity].
  - rewrite escapeChar_entity.
    destruct (entity c) as [e|] eqn:He.
    + split.
      * intros H.
        assert (Hlen : String.length (e ++ HtmlTemplate.escapeHtml text)
                       = S (String.length text)) by now rewrite H.
        pose proof (escapeHtml_length text) as Hl.
        exfalso. revert Hlen. unfold entity in He.
        repeat match type of He with
               | context [Ascii.eqb c ?x] => destruct (Ascii.eqb c x)
               end; inversion He; subst; simpl; lia.
      * intros (H1 & H2 & H3 & H4 & H5). exfalso.
        unfold entity in He.
        destruct (Ascii.eqb c "&"); [discriminate H1|].
        destruct (Ascii.eqb c "<"); [discriminate H2|].
        destruct (Ascii.eqb c ">"); [discriminate H3|].
        destruct (Ascii.eqb c "034"); [discriminate H4|].
        destruct (Ascii.eqb c "'"); [discriminate H5 | discriminate He].
    + apply entity_None_iff in He. destruct He as (N1 & N2 & N3 & N4 & N5).
      apply Ascii.eqb_neq in N1, N2, N3, N4, N5.
      rewrite N1, N2, N3, N4, N5. simpl. rewrite <- IH.
      split; [now intros [= ->] | now intros ->].
Qed.

Lemma loadsInTurn_hit P css var fss :
  HtmlTemplate.cssCacheHit var = Some css ->
  loadsInTurn P var fss = (repeat css (List.length fss), var).
Proof.
  intros Hhit. induction fss as [|fs fss IH]; simpl; [reflexivity|].
  unfold HtmlTemplate.loadGithubMarkdownCss. rewrite Hhit, IH. reflexivity.
Qed.

(** X11. A call of [loadGithubMarkdownCss] that finds a sheet that is not
    empty in the module variable returns it without reading the file.  So
    when the calls do not overlap, once a call has returned a sheet that is
    not empty, all the calls after it return that sheet, whatever the file
    system holds by then; after a call that returned the empty string
    (failed read or empty file) the next call reads the file again.  Calls
    that overlap are different, because the variable is tested before and
    assigned after an [await]: when two change handlers both found the
    variable empty, each read that succeeds is stored when it settles, and
    the sheet of the read that settles last replaces the other one. *)
Theorem css_cache_sticks_once_loaded :
  forall (P : Platform) (fs : FS) (v var : option string) (css : string),
    HtmlTemplate.loadGithubMarkdownCss P fs v = (css, var) ->
    (css <> "" ->
     forall fss : list FS,
       loadsInTurn P var fss = (repeat css (List.length fss), var))
    /\ (css = "" ->
        forall fs' : FS,
          HtmlTemplate.loadGithubMarkdownCss P fs' var
          = HtmlTemplate.cssCacheMiss P fs' var)
    /\ (forall (s : Server) (h1 h2 : nat) (c1 c2 a b : string) (fs1 fs2 : FS),
           h1 <> h2 ->
           phase_of (handlers s) h1 = Some (AwaitGenerate c1 None) ->
           phase_of (handlers s) h2 = Some (AwaitGenerate c2 None) ->
           readFile fs1 (cssPath P) = Ok a ->
           readFile fs2 (cssPath P) = Ok b ->
           githubMarkdownCss (step P s (EvGenerateSettled h1 fs1)) = Some a
           /\ githubMarkdownCss
                (run P s [EvGenerateSettled h1 fs1; EvGenerateSettled h2 fs2])
              = Some b).
Proof.
  intros P fs v var css Hload.
  assert (Hcases : (css <> "" -> HtmlTemplate.cssCacheHit var = Some css)
                   /\ (css = "" -> HtmlTemplate.cssCacheHit var = None)).
  { revert Hload.
    unfold HtmlTemplate.loadGithubMarkdownCss, HtmlTemplate.cssCacheMiss.
    destruct v as [[|c0 v0]|]; simpl.
    - destruct (readFile fs (cssPath P)) as [[|c1 css1]|e]; intros [= <- <-];
        simpl; split; intros H; congruence.
    - intros [= <- <-]. simpl. split; intros H; [reflexivity | discriminate H].
    - destruct (readFile fs (cssPath P)) as [[|c1 css1]|e]; intros [= <- <-];
        simpl; split; intros H; congruence. }
  destruct Hcases as [Hhit Hmiss].
  split; [|split].
  - intros Hne fss. apply loadsInTurn_hit. now apply Hhit.
  - intros He fs'. unfold HtmlTemplate.loadGithubMarkdownCss.
    now rewrite (Hmiss He).
  - intros s h1 h2 c1 c2 a b fs1 fs2 Hne H1 H2 Ha Hb.
    change (run P s [?x; ?y]) with (step P (step P s x) y).
    rewrite (step_generate P s h1 fs1 c1 None H1). cbv zeta.
    unfold loadedCss at 1 2. unfold HtmlTemplate.cssCacheMiss at 1 2.
    rewrite Ha. cbn [fst snd].
    match goal with
    | |- _ /\ githubMarkdownCss (step P ?s' _) = _ =>
        assert (H2' : phase_of (handlers s') h2 = Some (AwaitGenerate c2 None))
    end.
    { simpl. rewrite phase_of_set_phase_other by exact Hne. exact H2. }
    split; [reflexivity|].
    rewrite (step_generate P _ h2 fs2 c2 None H2'). cbv zeta.
    unfold loadedCss, HtmlTemplate.cssCacheMiss. rewrite Hb. reflexivity.
Qed.

Lemma css_cache_sticks_once_loaded_witness :
  loadsInTurn samplePlatform
    (snd (HtmlTemplate.loadGithubMarkdownCss samplePlatform
            {| stat_size := fun _ => Ok 9%Z;
               readFile := fun _ => Ok "body { }";
               access_R_OK := fun _ => Ok tt |} None))
    [docsFS; docsFS; docsFS]
  = (["body { }"; "body { }"; "body { }"], Some "body { }").
Proof.
  refine (proj1 (css_cache_sticks_once_loaded samplePlatform
            {| stat_size := fun _ => Ok 9%Z;
               readFile := fun _ => Ok "body { }";
               access_R_OK := fun _ => Ok tt |} None
            (Some "body { }") "body { }" eq_refl) _ [docsFS; docsFS; docsFS]).
  discriminate.
Defined.

(** ** MIME types *)

Section MimeFacts.
Import JsString Mime.

Lemma chars_app a b : chars (a ++ b) = (chars a ++ chars b)%list.
Proof.
  unfold chars. induction a as [|c a IH]; simpl; [reflexivity | now rewrite IH].
Qed.

Lemma of_chars_chars s : of_chars (chars s) = s.
Proof. apply string_of_list_ascii_of_string. Qed.

Lemma take_while_stop p l x l' :
  forallb p l = true -> p x = false ->
  Path.take_while p (l ++ x :: l')%list = l.
Proof.
  intros Hl Hx. induction l as [|y l IH]; simpl in *.
  - now rewrite Hx.
  - apply andb_true_iff in Hl. destruct Hl as [Hy Hl].
    rewrite Hy. now rewrite IH.
Qed.

Lemma drop_while_stop p l x l' :
  forallb p l = true -> p x = false ->
  Path.drop_while p (l ++ x :: l')%list = (x :: l')%list.
Proof.
  intros Hl Hx. induction l as [|y l IH]; simpl in *.
  - now rewrite Hx.
  - apply andb_true_iff in Hl. destruct Hl as [Hy Hl].
    rewrite Hy. now apply IH.
Qed.

Lemma take_while_all p l : forallb p l = true -> Path.take_while p l = l.
Proof.
  induction l as [|y l IH]; simpl; [reflexivity|].
  intros H. apply andb_true_iff in H. destruct H as [Hy Hl].
  rewrite Hy. now rewrite IH.
Qed.

Lemma drop_while_all p l : forallb p l = true -> Path.drop_while p l = [].
Proof.
  induction l as [|y l IH]; simpl; [reflexivity|].
  intros H. apply andb_true_iff in H. destruct H as [Hy Hl].
  rewrite Hy. now apply IH.
Qed.

Lemma drop_while_head p x l : p x = false -> Path.drop_while p (x :: l) = x :: l.
Proof. intros H. simpl. now rewrite H. Qed.

Lemma forallb_rev {A} (p : A -> bool) l : forallb p (rev l) = forallb p l.
Proof.
  induction l as [|x l IH]; simpl; [reflexivity|].
  rewrite forallb_app, IH. simpl. rewrite andb_true_r. apply andb_comm.
Qed.

(** A character that does not occur in a string differs from each of its
    characters. *)
Lemma occurs_forallb c s :
  occurs c s = false ->
  forallb (fun x => negb (Ascii.eqb x c)) (rev (chars s)) = true.
Proof.
  intros H. rewrite forallb_rev. unfold chars.
  induction s as [|y s IH]; simpl in *; [reflexivity|].
  apply orb_false_iff in H. destruct H as [Hy Hs].
  rewrite Hy. simpl. now apply IH.
Qed.

Lemma rev_chars_nonempty s : s <> "" -> exists x l, rev (chars s) = x :: l.
Proof.
  intros H. destruct (rev (chars s)) as [|x l] eqn:E; [|now eauto].
  exfalso. apply H.
  apply (f_equal (@rev ascii)) in E. rewrite rev_involutive in E. simpl in E.
  rewrite <- (of_chars_chars s), E. reflexivity.
Qed.

(** The reversed characters of [dir/name]. *)
Lemma rev_chars_path dir name :
  rev (chars (dir ++ "/" ++ name))
  = (rev (chars name) ++ "/"%char :: rev (chars dir))%list.
Proof.
  rewrite !chars_app, !rev_app_distr. simpl. now rewrite <- app_assoc.
Qed.

(** The reversed last segment of [dir/name]. *)
Lemma base_rev_of_path dir name :
  name <> "" -> occurs "/" name = false ->
  Path.take_while (fun c => negb (Path.is_slash c))
    (Path.drop_while Path.is_slash (rev (chars (dir ++ "/" ++ name))))
  = rev (chars name).
Proof.
  intros Hne Hs. rewrite rev_chars_path.
  pose proof (occurs_forallb "/" name Hs) as Hall.
  destruct (rev_chars_nonempty name Hne) as (x & l & E).
  rewrite E in *. simpl app.
  rewrite drop_while_head.
  - change (x :: l ++ "/"%char :: rev (chars dir))%list
      with ((x :: l) ++ "/"%char :: rev (chars dir))%list.
    apply take_while_stop; [exact Hall | reflexivity].
  - simpl in Hall. apply andb_true_iff in Hall. destruct Hall as [Hx _].
    unfold Path.is_slash, Path.slash. now apply negb_true_iff in Hx.
Qed.

Lemma extname_of_extension dir name e :
  name <> "" -> occurs "/" name = false ->
  e <> "" -> occurs "/" e = false -> occurs "." e = false ->
  extname (dir ++ "/" ++ name ++ "." ++ e) = "." ++ e.
Proof.
  intros Hn Hns He Hes Hed.
  unfold extname.
  rewrite (base_rev_of_path dir (name ++ "." ++ e)).
  - rewrite !chars_app, !rev_app_distr. simpl. rewrite <- app_assoc. simpl.
    pose proof (occurs_forallb "." e Hed) as Hall.
    destruct (rev_chars_nonempty e He) as (x & l & Ee).
    destruct (rev_chars_nonempty name Hn) as (y & m & En).
    rewrite (take_while_stop (fun c => negb (is_dot c)) (rev (chars e))
                             "."%char (rev (chars name)) Hall eq_refl).
    rewrite (drop_while_stop (fun c => negb (is_dot c)) (rev (chars e))
                             "."%char (rev (chars name)) Hall eq_refl).
    rewrite En, Ee. rewrite <- Ee, rev_involutive.
    destruct m; simpl; now rewrite of_chars_chars.
  - destruct name; [contradiction | discriminate].
  - rewrite !occurs_app, Hns, Hes. reflexivity.
Qed.

Lemma extname_without_dot dir name :
  name <> "" -> occurs "/" name = false -> occurs "." name = false ->
  extname (dir ++ "/" ++ name) = "".
Proof.
  intros Hn Hs Hd. unfold extname. rewrite (base_rev_of_path dir name Hn Hs).
  now rewrite (drop_while_all (fun c => negb (is_dot c)) _
                              (occurs_forallb "." name Hd)).
Qed.

Lemma extname_dotfile dir e :
  occurs "/" e = false -> occurs "." e = false ->
  extname (dir ++ "/" ++ "." ++ e) = "".
Proof.
  intros Hs Hd. unfold extname.
  rewrite (base_rev_of_path dir ("." ++ e)); [|discriminate|exact Hs].
  rewrite chars_app, rev_app_distr. simpl.
  now rewrite (drop_while_stop (fun c => negb (is_dot c)) (rev (chars e))
                               "."%char [] (occurs_forallb "." e Hd) eq_refl).
Qed.

Lemma lowerChar_idempotent c : lowerChar (lowerChar c) = lowerChar c.
Proof.
  unfold lowerChar.
  destruct (Nat.leb 65 (nat_of_ascii c) && Nat.leb (nat_of_ascii c) 90)%bool
    eqn:E.
  - apply andb_true_iff in E. destruct E as [E1 E2].
    apply Nat.leb_le in E1, E2.
    rewrite nat_ascii_embedding by lia.
    destruct (Nat.leb_spec (nat_of_ascii c + 32) 90); [lia|].
    now rewrite andb_false_r.
  - now rewrite E.
Qed.

End MimeFacts.

(** X12. For a file [dir/name.e] whose extension [e] is not empty and has
    no dot, [getMimeType] depends on the extension only, without regard to
    the case of its letters: it is the entry of [MIME_TYPES] for the lower
    case of [.e], and [application/octet-stream] when there is none. *)
Theorem getMimeType_by_extension :
  forall dir name e : string,
    name <> "" -> occurs "/" name = false ->
    e <> "" -> occurs "/" e = false -> occurs "." e = false ->
    Mime.getMimeType (dir ++ "/" ++ name ++ "." ++ e)
    = match Mime.lookup Mime.MIME_TYPES (Mime.toLowerCase ("." ++ e)) with
      | Some mime => mime
      | None => "application/octet-stream"
      end.
Proof.
  intros dir name e Hn Hns He Hes Hed. unfold Mime.getMimeType.
  now rewrite (extname_of_extension dir name e Hn Hns He Hes Hed).
Qed.

Lemma getMimeType_by_extension_witness :
  Mime.getMimeType ("/docs/img" ++ "/" ++ "photo.final" ++ "." ++ "JPG")
  = "image/jpeg".
Proof.
  rewrite (getMimeType_by_extension "/docs/img" "photo.final" "JPG");
    [reflexivity | discriminate | reflexivity | discriminate
     | reflexivity | reflexivity].
Defined.

(** X13. A file whose name has no dot, and a file whose name starts with
    its only dot (such as [.png]), have no extension for [getMimeType]:
    they are served as [application/octet-stream]. *)
Theorem getMimeType_without_extension :
  forall dir name : string,
    occurs "/" name = false -> occurs "." name = false ->
    (name <> "" ->
     Mime.getMimeType (dir ++ "/" ++ name) = "application/octet-stream")
    /\ Mime.getMimeType (dir ++ "/" ++ "." ++ name)
       = "application/octet-stream".
Proof.
  intros dir name Hs Hd. unfold Mime.getMimeType. split.
  - intros Hn. now rewrite (extname_without_dot dir name Hn Hs Hd).
  - now rewrite (extname_dotfile dir name Hs Hd).
Qed.

Lemma getMimeType_without_extension_witness :
  Mime.getMimeType ("/docs" ++ "/" ++ "Makefile") = "application/octet-stream"
  /\ Mime.getMimeType ("/docs" ++ "/" ++ "." ++ "png")
     = "application/octet-stream".
Proof.
  destruct (getMimeType_without_extension "/docs" "Makefile" eq_refl eq_refl)
    as [H1 _].
  destruct (getMimeType_without_extension "/docs" "png" eq_refl eq_refl)
    as [_ H2].
  split; [apply H1; discriminate | exact H2].
Defined.

(** ** References of the document and the asset route *)

Section References.
Import JsString.

Lemma prefix_refl s : String.prefix s s = true.
Proof.
  induction s as [|c s IH]; simpl; [reflexivity|].
  destruct (ascii_dec c c); [exact IH | congruence].
Qed.

Lemma prefix_app a x y :
  String.prefix (a ++ x) (a ++ y) = String.prefix x y.
Proof.
  induction a as [|c a IH]; simpl; [reflexivity|].
  destruct (ascii_dec c c); [exact IH | congruence].
Qed.

Lemma prefix_nil y : String.prefix "" y = true.
Proof. destruct y; reflexivity. Qed.

Lemma prefix_app_r x y : String.prefix x (x ++ y) = true.
Proof.
  induction x as [|c x IH]; simpl; [apply prefix_nil|].
  destruct (ascii_dec c c); [exact IH | congruence].
Qed.

Lemma slice_assets url : slice 8 ("/assets/" ++ url) = url.
Proof. reflexivity. Qed.

Lemma split_on_nonempty sep s : split_on sep s <> [].
Proof.
  destruct s as [|c s]; simpl; [discriminate|].
  destruct (Ascii.eqb c sep); [discriminate|].
  destruct (split_on sep s); discriminate.
Qed.

Lemma split_on_app sep a b :
  split_on sep (a ++ String sep b) = (split_on sep a ++ split_on sep b)%list.
Proof.
  induction a as [|c a IH]; simpl.
  - now rewrite Ascii.eqb_refl.
  - destruct (Ascii.eqb c sep); [now rewrite IH|].
    rewrite IH. pose proof (split_on_nonempty sep a) as Hne.
    destruct (split_on sep a); [contradiction | reflexivity].
Qed.

(** Without [..] among the segments, [normalizeString] only adds to what
    it has kept. *)
Lemma normalize_without_dotdot segs kept :
  forallb (fun seg => negb (String.eqb seg "..")) segs = true ->
  exists added,
    fold_left (Path.normalize_step false) segs kept = (added ++ kept)%list.
Proof.
  revert kept. induction segs as [|seg segs IH]; intros kept H; simpl.
  - now exists [].
  - simpl in H. apply andb_true_iff in H. destruct H as [Hseg Hsegs].
    apply negb_true_iff in Hseg.
    unfold Path.normalize_step at 2. rewrite Hseg.
    destruct (String.eqb seg "" || String.eqb seg ".")%bool.
    + now apply IH.
    + destruct (IH (seg :: kept) Hsegs) as (added & E).
      exists (added ++ [seg])%list. rewrite E, <- app_assoc. reflexivity.
Qed.

Lemma join_prefix sep a b :
  String.prefix (join sep a) (join sep (a ++ b)) = true.
Proof.
  induction a as [|x a IH]; [apply prefix_nil|].
  destruct a as [|y a].
  - destruct b as [|z b]; simpl; [apply prefix_refl | apply prefix_app_r].
  - change (join sep ((x :: y :: a) ++ b))
      with (x ++ sep ++ join sep ((y :: a) ++ b)).
    change (join sep (x :: y :: a)) with (x ++ sep ++ join sep (y :: a)).
    now rewrite !prefix_app.
Qed.

Lemma resolve_loop_cons cwd path more acc :
  Path.resolve_loop cwd (path :: more) acc
  = if String.eqb path "" then Path.resolve_loop cwd more acc
    else if Path.isAbsolute path then (path ++ "/" ++ acc, true)
         else Path.resolve_loop cwd more (path ++ "/" ++ acc).
Proof. reflexivity. Qed.

Lemma resolve_loop_absolute cwd base acc :
  Path.isAbsolute base = true ->
  Path.resolve_loop cwd [base] acc = (base ++ "/" ++ acc, true).
Proof.
  intros Hb. cbn [Path.resolve_loop].
  destruct (String.eqb_spec base "") as [->|_]; [discriminate Hb|].
  now rewrite Hb.
Qed.

Lemma normalizeString_join base acc :
  Path.normalizeString (base ++ "/" ++ acc) false
  = join "/" (rev (fold_left (Path.normalize_step false)
                     (split_on Path.slash acc)
                     (fold_left (Path.normalize_step false)
                        (split_on Path.slash base) []))).
Proof.
  unfold Path.normalizeString.
  change (base ++ "/" ++ acc) with (base ++ String Path.slash acc).
  now rewrite split_on_app, fold_left_app.
Qed.

(** [path.resolve(base)] for an absolute [base]. *)
Lemma resolve_self cwd base :
  Path.isAbsolute base = true ->
  Path.resolve cwd [base]
  = "/" ++ join "/" (rev (fold_left (Path.normalize_step false)
                            (split_on Path.slash base) [])).
Proof.
  intros Hb. unfold Path.resolve. simpl rev.
  rewrite (resolve_loop_absolute cwd base "" Hb). cbv iota beta. simpl negb.
  cbv iota. now rewrite normalizeString_join.
Qed.

(** [path.resolve(base, rel)] for an absolute [base] and a relative
    [rel]. *)
Lemma resolve_relative cwd base rel :
  Path.isAbsolute base = true -> Path.isAbsolute rel = false ->
  Path.resolve cwd [base; rel]
  = "/" ++ join "/" (rev (fold_left (Path.normalize_step false)
                            (split_on Path.slash rel)
                            (fold_left (Path.normalize_step false)
                               (split_on Path.slash base) []))).
Proof.
  intros Hb Hr. unfold Path.resolve. simpl rev.
  rewrite resolve_loop_cons.
  destruct (String.eqb_spec rel "") as [->|_].
  - rewrite (resolve_loop_absolute cwd base "" Hb). cbv iota beta.
    simpl negb. cbv iota. now rewrite normalizeString_join.
  - rewrite Hr, (resolve_loop_absolute cwd base _ Hb). cbv iota beta.
    simpl negb. cbv iota. rewrite normalizeString_join.
    change (rel ++ "/" ++ "") with (rel ++ String Path.slash "").
    rewrite split_on_app, fold_left_app. reflexivity.
Qed.

End References.

(** X14. The plugin leaves a URL alone when it is empty or starts with
    [http://], [https://], [//] or [#]; every other URL, a [mailto:] link
    and a path that starts with a slash included, gets [/assets/] in
    front.  A request for the rewritten URL goes to the asset branch of
    the handler, where the text after [/assets/] is the original URL. *)
Theorem rewritten_reference_reaches_asset_route :
  forall (P : Platform) (s : Server) (fs : FS) (res : Res) (url : string),
    let rewritten := RenderMarkdown.remarkRelativePathResolver url in
    if (String.eqb url ""
        || JsString.startsWith url "http://"
        || JsString.startsWith url "https://"
        || JsString.startsWith url "//"
        || JsString.startsWith url "#")%bool
    then rewritten = url
    else rewritten = "/assets/" ++ url
         /\ JsString.slice (String.length "/assets/") rewritten = url
         /\ requestHandler P s fs res rewritten
            = (s, serveAsset P (config s) fs rewritten).
Proof.
  intros P s fs res url rewritten. subst rewritten.
  unfold RenderMarkdown.remarkRelativePathResolver.
  destruct (String.eqb url ""
            || JsString.startsWith url "http://"
            || JsString.startsWith url "https://"
            || JsString.startsWith url "//"
            || JsString.startsWith url "#")%bool; [reflexivity|].
  split; [reflexivity|]. split; [reflexivity|].
  unfold requestHandler.
  change (String.eqb ("/assets/" ++ url) "/") with false.
  change (String.eqb ("/assets/" ++ url) "/events") with false.
  rewrite andb_false_r. cbv iota.
  replace (JsString.startsWith ("/assets/" ++ url) "/assets/") with true;
    [reflexivity|].
  unfold JsString.startsWith. symmetry.
  apply (prefix_app_r "/assets/" url).
Qed.

(** X15. When [baseDir] is an absolute path in normal form, a reference
    that is relative and has no [..] segment resolves to a path that
    starts with [baseDir]: the request is never answered 403; its status
    is 200 when [access] accepts the resolved path and 404 otherwise. *)
Theorem reference_without_dotdot_is_not_refused :
  forall (P : Platform) (c : Config) (fs : FS) (url relativePath : string),
    Path.isAbsolute (baseDir c) = true ->
    Path.resolve (cwd P) [baseDir c] = baseDir c ->
    decodeURIComponent P (JsString.slice 8 url) = Some relativePath ->
    Path.isAbsolute relativePath = false ->
    forallb (fun seg => negb (String.eqb seg ".."))
            (JsString.split_on Path.slash relativePath) = true ->
    let assetPath := Path.resolve (cwd P) [baseDir c; relativePath] in
    JsString.startsWith assetPath (baseDir c) = true
    /\ serveAsset P c fs url <> forbidden
    /\ status (serveAsset P c fs url)
       = match access_R_OK fs assetPath with
         | Ok _ => 200
         | Throw _ => 404
         end
    /\ forall o : StreamOutcome,
        fst (received (serveAsset P c fs url) o)
        = match access_R_OK fs assetPath with
          | Ok _ => 200
          | Throw _ => 404
          end.
Proof.
  intros P c fs url rel Habs Hnorm Hdec Hrel Hsegs assetPath.
  assert (Hstarts : JsString.startsWith assetPath (baseDir c) = true).
  { subst assetPath. unfold JsString.startsWith.
    rewrite <- Hnorm at 1.
    rewrite (resolve_self (cwd P) (baseDir c) Habs),
            (resolve_relative (cwd P) (baseDir c) rel Habs Hrel).
    destruct (normalize_without_dotdot
                (JsString.split_on Path.slash rel)
                (fold_left (Path.normalize_step false)
                   (JsString.split_on Path.slash (baseDir c)) []) Hsegs)
      as (added & E).
    rewrite E, rev_app_distr.
    rewrite (prefix_app "/"). apply join_prefix. }
  split; [exact Hstarts|].
  assert (Hserve : serveAsset P c fs url
                   = match access_R_OK fs assetPath with
                     | Ok _ => {| status := 200; body := FileStream assetPath |}
                     | Throw _ => notFound
                     end).
  { unfold serveAsset. simpl String.length. rewrite Hdec.
    fold assetPath. rewrite Hstarts. reflexivity. }
  rewrite Hserve.
  destruct (access_R_OK fs assetPath); split; try discriminate;
    split; try reflexivity; intros [content|piped e]; reflexivity.
Qed.

Lemma reference_without_dotdot_is_not_refused_witness :
  status (serveAsset samplePlatform
            (makeConfig samplePlatform "/docs/readme.md" watchOff)
            docsFS "/assets/./img/a%20b.png") = 200
  /\ JsString.startsWith
       (Path.resolve (cwd samplePlatform) ["/docs"; "./img/a b.png"]) "/docs"
     = true.
Proof.
  destruct (reference_without_dotdot_is_not_refused samplePlatform
              (makeConfig samplePlatform "/docs/readme.md" watchOff)
              docsFS "/assets/./img/a%20b.png" "./img/a b.png"
              eq_refl eq_refl eq_refl eq_refl eq_refl) as (H1 & _ & H2 & _).
  split; [exact H2 | exact H1].
Defined.

(** ** The command line *)

Section CliFacts.
Variable E : Cli.Env.
Variable P : Platform.

Lemma action_Serving file options fs0 fs listen s :
  snd (Cli.action E P file options fs0 fs listen) = Cli.Serving s ->
  exists port,
    Cli.parseInt10 E (Cli.arg_port options) = Some port
    /\ Cli.portRejected (Some port) = false
    /\ access_R_OK fs0 (Path.resolve (cwd P) [file]) = Ok tt
    /\ snd (createServer P (Path.resolve (cwd P) [file])
              {| o_port := Some (Z.to_nat port);
                 o_watch := Some (Cli.arg_watch options) |} fs listen) = Ok s.
Proof.
  unfold Cli.action.
  destruct (Cli.parseInt10 E (Cli.arg_port options)) as [port|];
    [|discriminate].
  destruct (Cli.portRejected (Some port)) eqn:Hport; [discriminate|].
  destruct (access_R_OK fs0 _) as [[]|] eqn:Ha; [|discriminate].
  destruct (createServer P _ _ fs listen) as [effs [s'|e]] eqn:Hc;
    [|discriminate].
  intros H. exists port. repeat split; try assumption.
  rewrite Hc. simpl. f_equal.
  destruct (Cli.arg_open options); [|simpl in H; congruence].
  destruct (Cli.openBrowser E _); simpl in H; congruence.
Qed.

End CliFacts.

(** X16. When the command ends up serving, the port argument parsed to a
    number between 1 and 65535 and the server listens on that number; the
    file was readable; the server holds a rendered document; and its watch
    mode is the one asked for. *)
Theorem cli_serves_only_on_valid_port :
  forall (E : Cli.Env) (P : Platform) (file : string) (options : Cli.Args)
         (fs0 fs : FS) (listen : ListenOutcome) (s : Server),
    snd (Cli.action E P file options fs0 fs listen) = Cli.Serving s ->
    exists n : Z,
      Cli.parseInt10 E (Cli.arg_port options) = Some n
      /\ (1 <= n <= 65535)%Z
      /\ port (config s) = Z.to_nat n
      /\ watch (config s) = Cli.arg_watch options
      /\ access_R_OK fs0 (Path.resolve (cwd P) [file]) = Ok tt
      /\ listening s = true
      /\ cachedHtml s <> None.
Proof.
  intros E P file options fs0 fs listen s H.
  destruct (action_Serving E P file options fs0 fs listen s H)
    as (n & Hparse & Hport & Ha & Hc).
  destruct (createServer_Ok P _ _ _ _ _ Hc)
    as (content & css & _ & _ & Hcfg & Hhtml & _ & _ & Hl & _).
  exists n. split; [exact Hparse|].
  split.
  { simpl in Hport. apply orb_false_iff in Hport. destruct Hport as [H1 H2].
    apply Z.ltb_ge in H1.
    destruct (Z.gtb_spec n 65535); [discriminate | lia]. }
  rewrite Hcfg, Hhtml. simpl.
  repeat split; try assumption. discriminate.
Qed.

Lemma cli_serves_only_on_valid_port_witness :
  exists s n,
    snd (Cli.action sampleEnv samplePlatform "/docs/readme.md"
           {| Cli.arg_port := "8080"; Cli.arg_watch := true;
              Cli.arg_open := false |} docsFS docsFS Listening)
    = Cli.Serving s
    /\ Cli.parseIntAscii "8080" = Some n
    /\ port (config s) = Z.to_nat n.
Proof.
  destruct (snd (Cli.action sampleEnv samplePlatform "/docs/readme.md"
                   {| Cli.arg_port := "8080"; Cli.arg_watch := true;
                      Cli.arg_open := false |} docsFS docsFS Listening))
    as [code|s] eqn:H; [vm_compute in H; discriminate H|].
  destruct (cli_serves_only_on_valid_port sampleEnv samplePlatform
              "/docs/readme.md" _ docsFS docsFS Listening s H)
    as (n & Hparse & _ & Hport & _).
  exists s, n. split; [reflexivity|]. split; assumption.
Defined.

(** X18. With a valid port and a readable file, when [stat] reports more
    than 10 MiB for the file the command leaves with exit code 1: the
    server is not created, [listen] is never called, and the error printed
    is the size error of the renderer.  The same holds, with its own
    error, for every failure of [createServer]. *)
Theorem cli_exits_when_server_creation_fails :
  forall (E : Cli.Env) (P : Platform) (file : string) (options : Cli.Args)
         (fs0 fs : FS) (listen : ListenOutcome) (n : Z),
    Cli.parseInt10 E (Cli.arg_port options) = Some n ->
    (1 <= n <= 65535)%Z ->
    access_R_OK fs0 (Path.resolve (cwd P) [file]) = Ok tt ->
    let filePath := Path.resolve (cwd P) [file] in
    let created := createServer P filePath
                     {| o_port := Some (Z.to_nat n);
                        o_watch := Some (Cli.arg_watch options) |} fs listen in
    (forall e,
        snd created = Throw e ->
        snd (Cli.action E P file options fs0 fs listen) = Cli.Exit 1
        /\ exists before,
            fst (Cli.action E P file options fs0 fs listen)
            = (before ++ [Cli.ServerActions (fst created);
                          Cli.PrintErrorOf "Error:" e])%list)
    /\ (forall size,
           stat_size fs (Path.resolve (cwd P) [filePath]) = Ok size ->
           (size > 10 * 2 ^ 20)%Z ->
           snd created = Throw (FileTooLarge size)
           /\ existsb isListen (fst created) = false).
Proof.
  intros E P file options fs0 fs listen n Hparse Hn Ha filePath created.
  subst filePath. split.
  - intros e He. unfold Cli.action. rewrite Hparse.
    replace (Cli.portRejected (Some n)) with false.
    + rewrite Ha. fold created.
      destruct created as [effs r]. simpl in He. subst r. simpl.
      split; [reflexivity|]. eexists. reflexivity.
    + simpl. symmetry. apply orb_false_iff. split; [apply Z.ltb_ge; lia|].
      destruct (Z.gtb_spec n 65535); [lia | reflexivity].
  - intros size Hstat Hsize. subst created. unfold createServer.
    cbn [makeConfig absoluteFilePath].
    rewrite (renderMarkdown_too_large P fs _ size Hstat Hsize).
    split; reflexivity.
Qed.

Lemma cli_exits_when_server_creation_fails_witness :
  snd (Cli.action sampleEnv samplePlatform "/docs/readme.md"
         {| Cli.arg_port := "3000"; Cli.arg_watch := true;
            Cli.arg_open := true |} docsFS (sampleFS 20000000 "hello")
         Listening) = Cli.Exit 1.
Proof.
  destruct (cli_exits_when_server_creation_fails sampleEnv samplePlatform
              "/docs/readme.md"
              {| Cli.arg_port := "3000"; Cli.arg_watch := true;
                 Cli.arg_open := true |} docsFS (sampleFS 20000000 "hello")
              Listening 3000%Z eq_refl ltac:(lia) eq_refl) as [Hfail Hsize].
  destruct (Hsize 20000000%Z eq_refl ltac:(lia)) as [Hthrow _].
  exact (proj1 (Hfail _ Hthrow)).
Defined.

(** ** What changes the state *)

Section Chunks.
Variable P : Platform.

Lemma chunksWritten_app t t' :
  chunksWritten (t ++ t')%list = (chunksWritten t ++ chunksWritten t')%list.
Proof. unfold chunksWritten. apply flat_map_app. Qed.

(** The loop writes the reload chunk, to viewers of the set only. *)
Lemma notifyLoop_chunks writes clients :
  exists viewers,
    chunksWritten (fst (notifyLoop writes clients))
    = map (fun c => (c, reloadChunk)) viewers
    /\ incl viewers clients.
Proof.
  induction clients as [|c l IH]; simpl.
  - exists []. split; [reflexivity | apply incl_refl].
  - destruct IH as (viewers & Hv & Hincl).
    destruct (notifyLoop writes l) as [effs r]. simpl in Hv.
    destruct (writes c); simpl.
    + exists (c :: viewers). rewrite Hv. split; [reflexivity|].
      now apply incl_cons; [left | apply incl_tl].
    + exists (c :: viewers). rewrite Hv. split; [reflexivity|].
      now apply incl_cons; [left | apply incl_tl].
    + exists [c]. split; [reflexivity|].
      apply incl_cons; [now left | apply incl_nil_l].
Qed.

(** What a request writes to a response that stays open. *)
Lemma request_chunksWritten s res url fs :
  chunksWritten (trace (step P s (EvRequest res url fs)))
  = (chunksWritten (trace s)
     ++ (if (watch (config s) && String.eqb url "/events")%bool
         then [(res, (": connected" ++ JsString.nl ++ JsString.nl)%string)]
         else []))%list.
Proof.
  unfold step.
  destruct (requestHandler P s fs res url) as [s1 r] eqn:Hrh.
  simpl. rewrite chunksWritten_app. revert Hrh. unfold requestHandler.
  destruct (String.eqb_spec url "/") as [->|Hroot].
  - intros [= <- <-]. rewrite andb_false_r. f_equal.
    unfold endWith. destruct (cachedHtml s); reflexivity.
  - destruct (watch (config s) && String.eqb url "/events")%bool.
    + intros [= <- <-]. reflexivity.
    + destruct (JsString.startsWith url "/assets/").
      * intros [= <- <-]. f_equal.
        unfold serveAsset, forbidden, notFound.
        destruct (decodeURIComponent P _); [|reflexivity].
        destruct (negb _); [reflexivity|].
        destruct (access_R_OK fs _); reflexivity.
      * intros [= <- <-]. reflexivity.
Qed.

Lemma chunksWritten_ends l : chunksWritten (map ClientEnd l) = [].
Proof. induction l; [reflexivity | assumption]. Qed.

End Chunks.

(** X19. The cached document changes only when the [generateHtml] of a
    handler settles.  Something is written to a response that stays open
    only in two places: when a change handler resumes, which writes the
    reload chunk and only to viewers in the set, and when a request
    subscribes under watch mode, which writes the opening comment to the
    response it adds.  A render is started only by a change event; and the
    set of viewers changes only on a request, on the ['close'] event of a
    connection and on [close()]. *)
Theorem state_changes_only_where_expected :
  forall (P : Platform) (s : Server) (ev : Event),
    (cachedHtml (step P s ev) = cachedHtml s
     \/ exists h fs, ev = EvGenerateSettled h fs)
    /\ (chunksWritten (trace (step P s ev)) = chunksWritten (trace s)
        \/ (exists h writes viewers,
               ev = EvResume h writes
               /\ incl viewers (sseClients s)
               /\ chunksWritten (trace (step P s ev))
                  = (chunksWritten (trace s)
                     ++ map (fun c => (c, reloadChunk)) viewers)%list)
        \/ (exists res fs,
               ev = EvRequest res "/events" fs
               /\ watch (config s) = true
               /\ chunksWritten (trace (step P s ev))
                  = (chunksWritten (trace s)
                     ++ [(res, (": connected" ++ JsString.nl
                                ++ JsString.nl)%string)])%list))
    /\ (rendersStarted (trace (step P s ev)) = rendersStarted (trace s)
        \/ ev = EvFileChange)
    /\ (sseClients (step P s ev) = sseClients s
        \/ (exists res url fs, ev = EvRequest res url fs)
        \/ (exists res, ev = EvConnClose res)
        \/ ev = EvClose).
Proof.
  intros P s ev.
  split; [|split; [|split]].
  - destruct ev; try (right; eauto; fail); left;
      unfold_step; repeat break_match; simpl;
      repeat match goal with
             | H : (_, _) = (_, _) |- _ => injection H as <- <-
             end; reflexivity.
  - destruct ev.
    + pose proof (request_chunksWritten P s res url fs) as H.
      destruct (watch (config s) && String.eqb url "/events")%bool eqn:Hb.
      * right; right. apply andb_true_iff in Hb. destruct Hb as [Hw Hu].
        apply String.eqb_eq in Hu. subst url.
        exists res, fs. split; [reflexivity|]. split; [exact Hw | exact H].
      * left. rewrite H. apply app_nil_r.
    + left. unfold step. destruct (SetOps.has _ _); reflexivity.
    + left. unfold step. destruct (watching s); [|reflexivity].
      unfold onChange. simpl. rewrite chunksWritten_app. apply app_nil_r.
    + left. unfold step, onRenderSettled.
      repeat break_match; simpl; try reflexivity.
      rewrite chunksWritten_app. apply app_nil_r.
    + left. unfold step, onGenerateSettled. repeat break_match; reflexivity.
    + unfold step, onResume.
      destruct (phase_of (handlers s) h) as [[| |[html|e]]|];
        try (left; reflexivity).
      * right; left.
        destruct (notifyLoop_chunks writes (sseClients s))
          as (viewers & Hv & Hincl).
        exists h, writes, viewers.
        split; [reflexivity|]. split; [exact Hincl|].
        destruct (notifyLoop writes (sseClients s)) as [effs loop].
        simpl in *.
        change (ConsoleLog "Re-render complete" :: effs ++ ?t)%list
          with ([ConsoleLog "Re-render complete"] ++ effs ++ t)%list.
        rewrite !chunksWritten_app, Hv.
        destruct loop; simpl; now rewrite app_nil_r.
      * left. simpl. rewrite chunksWritten_app. apply app_nil_r.
    + left. unfold step, close, emit. simpl.
      rewrite !chunksWritten_app, chunksWritten_ends.
      destruct (watching s); simpl; now rewrite app_nil_r.
  - destruct ev; try (right; reflexivity); left;
      apply step_rendersStarted_other; discriminate.
  - destruct ev; try (right; eauto 6; fail); left;
      unfold_step; repeat break_match; reflexivity.
Qed.

(** ** A server without watch mode *)

Section NoWatch.
Variable P : Platform.

Lemma step_Still s ev :
  Still s ->
  Still (step P s ev)
  /\ cachedHtml (step P s ev) = cachedHtml s
  /\ rendersStarted (trace (step P s ev)) = rendersStarted (trace s)
  /\ writtenTo (trace (step P s ev)) = writtenTo (trace s).
Proof.
  intros [Hw Hh].
  assert (Hhs : handlers (step P s ev) = handlers s
                /\ cachedHtml (step P s ev) = cachedHtml s
                /\ writtenTo (trace (step P s ev)) = writtenTo (trace s)).
  { destruct ev.
    - destruct (request_state_kept P s res url fs) as (H1 & H2 & _).
      repeat split; try assumption.
      apply step_writtenTo_other; discriminate.
    - unfold step. destruct (SetOps.has _ _); repeat split; reflexivity.
    - unfold step. rewrite Hw. repeat split; reflexivity.
    - assert (E : step P s (EvRenderSettled h fs) = s)
        by (unfold step, onRenderSettled; now rewrite Hh).
      rewrite E. repeat split; reflexivity.
    - assert (E : step P s (EvGenerateSettled h fs) = s)
        by (unfold step, onGenerateSettled; now rewrite Hh).
      rewrite E. repeat split; reflexivity.
    - assert (E : step P s (EvResume h writes) = s)
        by (unfold step, onResume; now rewrite Hh).
      rewrite E. repeat split; reflexivity.
    - repeat split; try reflexivity.
      apply step_writtenTo_other; discriminate. }
  destruct Hhs as (H1 & H2 & H3).
  split; [split; [now apply step_watching_off | now rewrite H1]|].
  split; [exact H2|]. split; [|exact H3].
  now apply step_rendersStarted.
Qed.

End NoWatch.

(** X20. A server created without watch mode calls [renderMarkdown] once,
    at startup: whatever events follow, no further render is started, the
    cached document stays the one of the first render, and nothing is
    written to any viewer. *)
Theorem without_watch_one_render :
  forall (P : Platform) (filePath : string) (options : Options) (fs : FS)
         (listen : ListenOutcome) (s0 : Server) (evs : list Event),
    o_watch options <> Some true ->
    snd (createServer P filePath options fs listen) = Ok s0 ->
    let s := run P s0 evs in
    rendersStarted (trace s) = 1
    /\ cachedHtml s = cachedHtml s0
    /\ writtenTo (trace s) = [].
Proof.
  intros P filePath options fs listen s0 evs Hopt H0 s.
  assert (Hw : watch (makeConfig P filePath options) = false).
  { simpl. destruct (o_watch options) as [[|]|]; congruence. }
  assert (Hinit : Still s0 /\ rendersStarted (trace s0) = 1
                  /\ writtenTo (trace s0) = []).
  { revert H0. unfold createServer.
    destruct (RenderMarkdown.renderMarkdown P fs _); [|discriminate].
    destruct (HtmlTemplate.loadGithubMarkdownCss P fs None) as [css var].
    rewrite Hw. destruct listen; [|discriminate].
    simpl. intros [= <-]. repeat split. }
  destruct Hinit as (Hstill & Hr & Hwr).
  assert (Hrun : Still s /\ cachedHtml s = cachedHtml s0
                 /\ rendersStarted (trace s) = rendersStarted (trace s0)
                 /\ writtenTo (trace s) = writtenTo (trace s0)).
  { subst s. induction evs as [|ev evs IH] using rev_ind;
      [split; [exact Hstill | repeat split]|].
    rewrite run_snoc. destruct IH as (IH1 & IH2 & IH3 & IH4).
    destruct (step_Still P (run P s0 evs) ev IH1) as (S1 & S2 & S3 & S4).
    repeat split; try apply S1; congruence. }
  destruct Hrun as (_ & Hc & Hn & Hwt).
  split; [congruence|]. split; [exact Hc | congruence].
Qed.

Lemma without_watch_one_render_witness :
  exists s0,
    snd (createServer samplePlatform "/docs/readme.md" watchOff docsFS Listening)
    = Ok s0
    /\ rendersStarted
         (trace (run samplePlatform s0
                     [EvFileChange; EvRequest 1 "/events" docsFS;
                      EvFileChange; EvResume 0 (fun _ => Delivered)])) = 1.
Proof.
  destruct (snd (createServer samplePlatform "/docs/readme.md" watchOff docsFS
                              Listening)) as [s0|e] eqn:H0;
    [|vm_compute in H0; discriminate H0].
  exists s0. split; [reflexivity|].
  refine (proj1 (without_watch_one_render samplePlatform "/docs/readme.md"
                   watchOff docsFS Listening s0 _ _ H0)).
  simpl. discriminate.
Defined.

(** ** The base directory *)

Section BaseDir.
Import JsString.








End BaseDir.


